(** * The metrics-threshold gate of the Kubeflow pipeline notebook

    A shallow embedding of the lightweight component [eval_metrics] of
    [ml/automl/tables/xai/automl_tables_xai.ipynb] and of its inner function
    [regression_threshold_check], with the properties of the gate.

    The component receives two JSON documents (the training metrics and the
    thresholds), parses them with [json.loads], walks the thresholds
    dictionary in insertion order and returns the 1-tuple [('False',)] as
    soon as the last recorded value of [root_mean_squared_error] or [mae]
    exceeds its threshold, and [('deploy',)] otherwise.  Everything it does
    with the documents goes through Python's subscription and [>] operators,
    so their behaviour on JSON values (including the exceptions they raise)
    is part of the model. *)

From Stdlib Require Import ZArith List String Ascii Bool Lia Permutation Sorted
  OrderedTypeEx.
Import ListNotations.

Local Open Scope string_scope.
Local Open Scope Z_scope.
Local Open Scope list_scope.
Local Set Warnings "-register-all".

(** ** Python values produced by [json.loads] *)

Module PyValue.

(** A Python [float].  Every finite binary64 number is [m * 2^e] for some
    integers [m] and [e]; the three special values are what [json.loads]
    makes of the tokens [NaN], [Infinity] and [-Infinity] (and of literals
    that overflow). *)
Inductive pyfloat : Type :=
| NaN
| Infinity (negative : bool)
| Finite (m e : Z).

(** The value of [json.loads]: [None], [bool], [int], [float], [str],
    [list] and [dict].  A [dict] keeps its keys in insertion order, which is
    the order [.items()] yields them in; its keys are strings, and
    [json.loads] leaves each key once (no property below relies on it). *)
Inductive json : Type :=
| JNull
| JBool (b : bool)
| JInt (z : Z)
| JFloat (f : pyfloat)
| JStr (s : string)
| JList (l : list json)
| JDict (d : list (string * json)).

(** The exceptions the component can run into. *)
Inductive exn : Type :=
| KeyError (key : json)
| IndexError
| TypeError
| AttributeError
| JSONDecodeError.

Inductive outcome (A : Type) : Type :=
| Returned (a : A)
| Raised (e : exn).
Arguments Returned {A} a.
Arguments Raised {A} e.

(** *** Numbers

    [bool] is a subclass of [int], and Python compares [int] with [float]
    exactly, so for comparisons the three numeric types are read as one
    extended dyadic number. *)
Definition as_number (x : json) : option pyfloat :=
  match x with
  | JBool b => Some (Finite (if b then 1 else 0) 0)
  | JInt z => Some (Finite z 0)
  | JFloat f => Some f
  | _ => None
  end.

Definition finite_compare (m1 e1 m2 e2 : Z) : comparison :=
  let e := Z.min e1 e2 in
  Z.compare (m1 * 2 ^ (e1 - e)) (m2 * 2 ^ (e2 - e)).

(** [x > y] on numbers; every comparison with [NaN] is false. *)
Definition float_gt (x y : pyfloat) : bool :=
  match x, y with
  | NaN, _ | _, NaN => false
  | Infinity nx, Infinity ny => negb nx && ny
  | Infinity nx, Finite _ _ => negb nx
  | Finite _ _, Infinity ny => ny
  | Finite m1 e1, Finite m2 e2 =>
      match finite_compare m1 e1 m2 e2 with Gt => true | _ => false end
  end.

(** Equality of two elements as the container comparisons test it.  They
    try identity first, and [json.loads] hands out one and the same [NaN]
    object for every [NaN] token, so there [NaN] equals [NaN]. *)
Definition float_eq (x y : pyfloat) : bool :=
  match x, y with
  | NaN, NaN => true
  | Infinity nx, Infinity ny => Bool.eqb nx ny
  | Finite m1 e1, Finite m2 e2 =>
      match finite_compare m1 e1 m2 e2 with Eq => true | _ => false end
  | _, _ => false
  end.

(** *** Dictionaries and sequences *)

Fixpoint dict_get (d : list (string * json)) (k : string) : option json :=
  match d with
  | [] => None
  | (k', x) :: d' => if String.eqb k k' then Some x else dict_get d' k
  end.

(** [l[i]] on a sequence, negative indices counting from the end. *)
Definition seq_index {A : Type} (l : list A) (i : Z) : option A :=
  let n := Z.of_nat (List.length l) in
  let j := if i <? 0 then i + n else i in
  if (0 <=? j) && (j <? n) then nth_error l (Z.to_nat j) else None.

(** [o[k]] for a string [k]. *)
Definition getitem_str (o : json) (k : string) : outcome json :=
  match o with
  | JDict d =>
      match dict_get d k with
      | Some x => Returned x
      | None => Raised (KeyError (JStr k))
      end
  | _ => Raised TypeError
  end.

(** A [str] is a sequence of code points and is kept here in UTF-8, one
    [ascii] for each byte.  A byte [10xxxxxx] continues the character that
    the bytes before it began. *)
Definition is_continuation (c : ascii) : bool :=
  match c with
  | Ascii _ _ _ _ _ _ b6 b7 => b7 && negb b6
  end.

(** The characters of a string, each with all of its bytes. *)
Fixpoint utf8_chars (s : string) : list string :=
  match s with
  | EmptyString => []
  | String c s' =>
      match s' with
      | EmptyString => [String c EmptyString]
      | String c' _ =>
          if is_continuation c' then
            match utf8_chars s' with
            | ch :: chs => String c ch :: chs
            | [] => [String c EmptyString]
            end
          else String c EmptyString :: utf8_chars s'
      end
  end.

(** [o[i]] for an integer [i]; on a string it gives the [i]-th
    character. *)
Definition getitem_int (o : json) (i : Z) : outcome json :=
  match o with
  | JList l =>
      match seq_index l i with
      | Some x => Returned x
      | None => Raised IndexError
      end
  | JStr s =>
      match seq_index (utf8_chars s) i with
      | Some ch => Returned (JStr ch)
      | None => Raised IndexError
      end
  | JDict _ => Raised (KeyError (JInt i))
  | _ => Raised TypeError
  end.

(** [o.items()]. *)
Definition dict_items (o : json) : outcome (list (string * json)) :=
  match o with
  | JDict d => Returned d
  | _ => Raised AttributeError
  end.

(** *** Comparison operators *)

(** [a == b] as the container comparisons test it. *)
Fixpoint py_eq (a b : json) {struct a} : bool :=
  match a, b with
  | JNull, JNull => true
  | JStr s, JStr t => String.eqb s t
  | JList l, JList m =>
      (fix all2 (l m : list json) {struct l} : bool :=
         match l, m with
         | [], [] => true
         | x :: l', y :: m' => py_eq x y && all2 l' m'
         | _, _ => false
         end) l m
  | JDict d, JDict d' =>
      Nat.eqb (List.length d) (List.length d') &&
      (fix sub (d : list (string * json)) {struct d} : bool :=
         match d with
         | [] => true
         | (k, x) :: rest =>
             match dict_get d' k with
             | Some y => py_eq x y && sub rest
             | None => false
             end
         end) d
  | _, _ =>
      match as_number a, as_number b with
      | Some x, Some y => float_eq x y
      | _, _ => false
      end
  end.

Definition string_gt (s t : string) : bool :=
  match String.compare s t with Gt => true | _ => false end.

(** [a > b]: numbers among themselves, strings among themselves (by code
    point, which is the order of the bytes of their UTF-8 forms), lists
    among themselves (at the first pair of unequal elements, else by
    length); anything else raises [TypeError]. *)
Fixpoint py_gt (a b : json) {struct a} : outcome bool :=
  match a, b with
  | JStr s, JStr t => Returned (string_gt s t)
  | JList l, JList m =>
      (fix lex (l m : list json) {struct l} : outcome bool :=
         match l, m with
         | x :: l', y :: m' => if py_eq x y then lex l' m' else py_gt x y
         | _ :: _, [] => Returned true
         | [], _ => Returned false
         end) l m
  | _, _ =>
      match as_number a, as_number b with
      | Some x, Some y => Returned (float_gt x y)
      | _, _ => Raised TypeError
      end
  end.

End PyValue.
Export PyValue.

(** ** The [logging] module, as far as the component uses it *)

Module Logging.

(** The value the component returns: the 1-tuple whose only field the
    component's signature names [deploy]. *)
Record Outputs : Type := mkOutputs { deploy : string }.

(** One call of [logging.info], kept as the message it formats together
    with the arguments it formats it with. *)
Inductive log_record : Type :=
| LogEntry (k : string) (v : json)          (* 'k {}, v {}' *)
| LogReturningFalse (first v : json)        (* '{} > {}; returning False' *)
| LogThresholds (thresholds_dict : json)    (* 'thresholds dict: {}' *)
| LogMetrics (metrics : string)             (* 'metrics: %s' *)
| LogGotMetrics (metrics_dict : json)       (* 'got metrics info: %s' *)
| LogDecision (res : Outputs).              (* 'deploy decision: %s' *)

(** The root logger: its level and what it has emitted so far. *)
Record logger : Type := mkLogger { level : Z; records : list log_record }.

Definition INFO : Z := 20.

Definition set_level (l : Z) (lg : logger) : logger :=
  mkLogger l (records lg).

Definition emit (r : log_record) (lg : logger) : logger :=
  if level lg <=? INFO then mkLogger (level lg) (records lg ++ [r]) else lg.

End Logging.
Export Logging.

(** ** Computations that log and may raise *)

Definition M (A : Type) : Type := logger -> logger * outcome A.

Definition ret {A : Type} (a : A) : M A := fun lg => (lg, Returned a).

Definition bind {A B : Type} (c : M A) (k : A -> M B) : M B :=
  fun lg =>
    match c lg with
    | (lg', Returned a) => k a lg'
    | (lg', Raised e) => (lg', Raised e)
    end.

Definition lift {A : Type} (o : outcome A) : M A := fun lg => (lg, o).

Definition logging_info (r : log_record) : M unit :=
  fun lg => (emit r lg, Returned tt).

Definition setLevel (l : Z) : M unit :=
  fun lg => (set_level l lg, Returned tt).

Declare Scope py_scope.
Delimit Scope py_scope with py.
Notation "x <- c ;; k" := (bind c (fun x => k))
  (at level 61, c at next level, right associativity) : py_scope.
Notation "c ;; k" := (bind c (fun _ => k))
  (at level 61, right associativity) : py_scope.
Local Open Scope py_scope.

(** ** The component *)

(** The metric names of [if k in ['root_mean_squared_error', 'mae']]. *)
Definition checked_metrics : list string := ["root_mean_squared_error"; "mae"].

Definition str_in (k : string) (l : list string) : bool :=
  existsb (String.eqb k) l.

(** The body of [for k, v in thresholds_dict.items()], on the items still to
    visit. *)
Fixpoint threshold_loop (metrics_info : json) (items : list (string * json))
  : M Outputs :=
  match items with
  | [] => ret (mkOutputs "deploy")
  | (k, v) :: rest =>
      logging_info (LogEntry k v) ;;
      if str_in k checked_metrics then
        mk <- lift (getitem_str metrics_info k) ;;
        final <- lift (getitem_int mk (-1)) ;;
        exceeds <- lift (py_gt final v) ;;
        if (exceeds : bool) then
          first <- lift (getitem_int mk 0) ;;
          logging_info (LogReturningFalse first v) ;;
          ret (mkOutputs "False")
        else threshold_loop metrics_info rest
      else threshold_loop metrics_info rest
  end.

(** [regression_threshold_check], with the [thresholds_dict] of the
    enclosing scope as an argument. *)
Definition regression_threshold_check (thresholds_dict metrics_info : json)
  : M Outputs :=
  items <- lift (dict_items thresholds_dict) ;;
  threshold_loop metrics_info items.

Section Component.

(** [json.loads] of the Python standard library. *)
Variable json_loads : string -> outcome json.

Definition eval_metrics (metrics thresholds : string) : M Outputs :=
  setLevel INFO ;;
  thresholds_dict <- lift (json_loads thresholds) ;;
  logging_info (LogThresholds thresholds_dict) ;;
  logging_info (LogMetrics metrics) ;;
  metrics_dict <- lift (json_loads metrics) ;;
  logging_info (LogGotMetrics metrics_dict) ;;
  res <- regression_threshold_check thresholds_dict metrics_dict ;;
  logging_info (LogDecision res) ;;
  ret res.

End Component.

(** The two tokens of the decision. *)
Definition DEPLOY : Outputs := mkOutputs "deploy".
Definition HOLD : Outputs := mkOutputs "False".

(** What a run returns or raises, and what it leaves in the log. *)
Definition result {A : Type} (c : M A) (lg : logger) : outcome A := snd (c lg).
Definition log_after {A : Type} (c : M A) (lg : logger) : logger := fst (c lg).

Definition fresh_logger : logger := mkLogger 30 [].

(** Emitting several records in a row. *)
Definition emit_all (rs : list log_record) (lg : logger) : logger :=
  if level lg <=? INFO then mkLogger (level lg) (records lg ++ rs) else lg.

(** ** Reading the loop entry by entry *)

(** [metrics_info[k][-1]]. *)
Definition final_value (metrics_info : json) (k : string) : outcome json :=
  match getitem_str metrics_info k with
  | Returned mk => getitem_int mk (-1)
  | Raised e => Raised e
  end.

(** What one entry of the thresholds does to the loop: [Returned true] ends
    it with [('False',)], [Returned false] goes on to the next entry, and an
    exception ends the call. *)
Definition entry_check (metrics_info : json) (k : string) (v : json)
  : outcome bool :=
  if str_in k checked_metrics then
    match final_value metrics_info k with
    | Returned final => py_gt final v
    | Raised e => Raised e
    end
  else Returned false.

Fixpoint decision (metrics_info : json) (items : list (string * json))
  : outcome Outputs :=
  match items with
  | [] => Returned DEPLOY
  | (k, v) :: rest =>
      match entry_check metrics_info k v with
      | Returned true => Returned HOLD
      | Returned false => decision metrics_info rest
      | Raised e => Raised e
      end
  end.

(** The names the loop compares. *)
Definition is_checked (k : string) : Prop :=
  k = "root_mean_squared_error" \/ k = "mae".

(** The final observation of [k] is above, respectively not above, the
    threshold [v]. *)
Definition exceeds (metrics_info : json) (k : string) (v : json) : Prop :=
  exists final,
    final_value metrics_info k = Returned final /\ py_gt final v = Returned true.

Definition within (metrics_info : json) (k : string) (v : json) : Prop :=
  exists final,
    final_value metrics_info k = Returned final /\ py_gt final v = Returned false.

(** An entry the loop gets past: a name it does not compare, or a compared
    name whose final observation is not above the threshold. *)
Definition passes (metrics_info : json) (entry : string * json) : Prop :=
  is_checked (fst entry) -> within metrics_info (fst entry) (snd entry).

(** Some compared entry of the thresholds has its final observation above
    the threshold. *)
Definition some_checked_exceeds (metrics_info : json)
  (items : list (string * json)) : Prop :=
  exists k v, In (k, v) items /\ is_checked k /\ exceeds metrics_info k v.

(** What a call of [eval_metrics] returns or raises, without the log. *)
Definition eval_decision (json_loads : string -> outcome json)
  (metrics thresholds : string) : outcome Outputs :=
  match json_loads thresholds with
  | Returned thresholds_dict =>
      match json_loads metrics with
      | Returned metrics_dict =>
          match dict_items thresholds_dict with
          | Returned items => decision metrics_dict items
          | Raised e => Raised e
          end
      | Raised e => Raised e
      end
  | Raised e => Raised e
  end.

(** The metric names of a thresholds document. *)
Definition spec_names (thresholds_dict : json) : list string :=
  match thresholds_dict with
  | JDict d => map fst d
  | _ => []
  end.

(** ** The specification's reading of the gate

    The definitions of this module follow the words of the specification,
    not the code: they are what the component is compared with. *)

Module Spec.

Inductive direction : Type := LOWER_IS_BETTER | HIGHER_IS_BETTER.

(** The recognized error-style metrics. *)
Definition error_style_metrics : list string :=
  ["root_mean_squared_error"; "mae"; "mse"; "loss"].

(** The direction of an entry that supplies none. *)
Definition default_direction (name : string) : direction :=
  if str_in name error_style_metrics then LOWER_IS_BETTER else HIGHER_IS_BETTER.

(** [final > threshold] triggers HOLD under LOWER_IS_BETTER, and
    [final < threshold] under HIGHER_IS_BETTER. *)
Definition violates (d : direction) (final threshold : json) : bool :=
  match as_number final, as_number threshold with
  | Some x, Some t =>
      match d with
      | LOWER_IS_BETTER => float_gt x t
      | HIGHER_IS_BETTER => float_gt t x
      end
  | _, _ => false
  end.

(** A thresholded metric whose final (last) observation violates its
    threshold under its comparison direction. *)
Definition violating_entry (report : list (string * json))
  (name : string) (threshold : json) : Prop :=
  exists obs final,
    dict_get report name = Some (JList obs) /\
    seq_index obs (-1) = Some final /\
    violates (default_direction name) final threshold = true.

Definition some_violation (spec report : list (string * json)) : Prop :=
  exists name threshold,
    In (name, threshold) spec /\ violating_entry report name threshold.

Definition is_number (x : json) : Prop := as_number x <> None.


(** HOLD if and only if some thresholded metric's final observation
    violates its threshold, DEPLOY otherwise. *)
Definition hold_iff_violation (spec report : list (string * json))
  (lg : logger) : Prop :=
  forall o,
    result (regression_threshold_check (JDict spec) (JDict report)) lg
      = Returned o ->
    (o = HOLD <-> some_violation spec report) /\
    (o = DEPLOY <-> ~ some_violation spec report).

(** The default direction of a lone entry decides: a final observation
    that violates the threshold under it triggers HOLD. *)
Definition default_direction_applied (name : string) (threshold final : json)
  (lg : logger) : Prop :=
  violates (default_direction name) final threshold = true ->
  result (regression_threshold_check (JDict [(name, threshold)])
                                     (JDict [(name, JList [final])])) lg
    = Returned HOLD.

(** With two or more violating metrics the evaluation returns HOLD. *)
Definition hold_on_several_violations (spec report : list (string * json))
  (lg : logger) : Prop :=
  (exists n1 t1 n2 t2,
      n1 <> n2 /\ In (n1, t1) spec /\ In (n2, t2) spec /\
      violating_entry report n1 t1 /\ violating_entry report n2 t2) ->
  result (regression_threshold_check (JDict spec) (JDict report)) lg
    = Returned HOLD.

(** A thresholded metric absent from the report makes the evaluation fail. *)
Definition missing_metric_fails (spec report : list (string * json))
  (lg : logger) : Prop :=
  forall name threshold,
    In (name, threshold) spec ->
    dict_get report name = None ->
    exists e,
      result (regression_threshold_check (JDict spec) (JDict report)) lg
        = Raised e.

(** A thresholded metric present with an empty observation sequence makes
    the evaluation fail. *)
Definition empty_observations_fail (spec report : list (string * json))
  (lg : logger) : Prop :=
  forall name threshold,
    In (name, threshold) spec ->
    dict_get report name = Some (JList []) ->
    exists e,
      result (regression_threshold_check (JDict spec) (JDict report)) lg
        = Raised e.

(** A threshold that is not a number makes the evaluation fail. *)
Definition non_numeric_threshold_fails (spec report : list (string * json))
  (lg : logger) : Prop :=
  forall name threshold,
    In (name, threshold) spec ->
    as_number threshold = None ->
    exists e,
      result (regression_threshold_check (JDict spec) (JDict report)) lg
        = Raised e.


(** The value compared against the threshold of a thresholded metric is
    the last of its observations: a lone entry decides HOLD or DEPLOY by
    that value and the direction of the metric. *)
Definition last_observation_compared (name : string) (threshold : json)
  (obs : list json) (lg : logger) : Prop :=
  forall earlier final,
    obs = earlier ++ [final] ->
    result (regression_threshold_check (JDict [(name, threshold)])
                                       (JDict [(name, JList obs)])) lg
    = Returned
        (if violates (default_direction name) final threshold then HOLD
         else DEPLOY).

(** The evaluation is a pure function of the two documents: a call has no
    side effect, and what it returns does not depend on hidden state. *)
Definition pure_evaluation (json_loads : string -> outcome json)
  (metrics thresholds : string) : Prop :=
  (forall lg,
      log_after (eval_metrics json_loads metrics thresholds) lg = lg) /\
  (forall lg lg',
      result (eval_metrics json_loads metrics thresholds) lg
      = result (eval_metrics json_loads metrics thresholds) lg').

End Spec.

(** ** Documents used in the examples *)

(** [0.5] and [0.75] as binary64 numbers. *)
Definition half : json := JFloat (Finite 1 (-1)).
Definition three_quarters : json := JFloat (Finite 3 (-2)).

(** The texts of two documents: [{"mae": 10}] and [{"mae": [50, 8]}]. *)
Definition quoted (s : string) : string :=
  String "034" (String.append s (String "034" EmptyString)).
Definition thresholds_text : string :=
  String.append "{" (String.append (quoted "mae") ": 10}").
Definition metrics_text : string :=
  String.append "{" (String.append (quoted "mae") ": [50, 8]}").

(** A [json.loads] that knows the given document texts and rejects every
    other text. *)
Fixpoint loads_table (docs : list (string * json)) (text : string)
  : outcome json :=
  match docs with
  | [] => Raised JSONDecodeError
  | (t, x) :: docs' =>
      if String.eqb text t then Returned x else loads_table docs' text
  end.

(** ** The pipelines that use the component *)

(** The default of the pipelines' [thresholds] parameter,
    [{"root_mean_squared_error": 2000}]. *)
Definition default_thresholds : string :=
  String.append "{"
    (String.append (quoted "root_mean_squared_error") ": 2000}").

(** [dsl.Condition(eval_metrics.outputs['deploy'] == 'deploy')] of
    [bikes_weather_metrics] and [bikes_weather_hptune]: the serving step
    runs when the metrics step has completed and its output is the string
    ['deploy']; a step that raised produces no output and nothing after it
    runs. *)
Definition serve_condition (eval_metrics_step : outcome Outputs) : bool :=
  match eval_metrics_step with
  | Returned o => String.eqb (deploy o) "deploy"
  | Raised _ => false
  end.

(** ** Orders on thresholds *)

(** [y <= y'] on numbers that are not [NaN]. *)
Definition num_le (y y' : pyfloat) : Prop :=
  float_gt y y' = false /\ y <> NaN /\ y' <> NaN.

(** The same entry with its threshold kept or raised. *)
Definition threshold_raised (a b : string * json) : Prop :=
  a = b \/
  (fst a = fst b /\
   exists y y',
     as_number (snd a) = Some y /\ as_number (snd b) = Some y' /\ num_le y y').

(** The record [k {}, v {}] that the loop logs for an entry. *)
Definition entry_record (entry : string * json) : log_record :=
  LogEntry (fst entry) (snd entry).

(** ** The notebook's functions around the AutoML Tables client

    The client library is not part of the repository: what the service
    answers to a call is an argument of the function that makes the call.
    A run is the list of the calls it makes and the lines it prints, in
    order, with what it returns or raises. *)

Module AutoML.

(** [google.api_core.exceptions.NotFound], and every other exception a
    call of the client can raise. *)
Inductive api_exn : Type := NotFound | OtherException.

(** What ends a run early: an exception of the client, one of Python's
    own, or the [subprocess.CalledProcessError] of a command that failed. *)
Inductive failure : Type :=
| ApiFailure (e : api_exn)
| PyFailure (e : exn)
| ProcessFailure.

Inductive reply (A : Type) : Type :=
| Done (a : A)
| Failed (e : failure).
Arguments Done {A} a.
Arguments Failed {A} e.

(** A long-running operation: what [response.result()] gives, as the text
    it is printed as, or raises. *)
Definition operation : Type := reply string.

(** [enums.Model.DeploymentState]. *)
Inductive deployment_state_enum : Type :=
| DEPLOYMENT_STATE_UNSPECIFIED
| DEPLOYED
| UNDEPLOYED.

Definition state_eqb (a b : deployment_state_enum) : bool :=
  match a, b with
  | DEPLOYMENT_STATE_UNSPECIFIED, DEPLOYMENT_STATE_UNSPECIFIED => true
  | DEPLOYED, DEPLOYED => true
  | UNDEPLOYED, UNDEPLOYED => true
  | _, _ => false
  end.

Record column_info : Type := mkColumnInfo {
  feature_importance : pyfloat;
  column_display_name : string
}.

(** The fields of a model that the functions read. *)
Record model : Type := mkModel {
  name : string;
  display_name : string;
  deployment_state : deployment_state_enum;
  tables_model_column_info : list column_info;
  create_time_seconds : Z;
  create_time_nanos : Z
}.

(** The fields of a column spec that the functions read; [data_type] as
    the text it is printed as. *)
Record column_spec : Type := mkColumnSpec {
  spec_name : string;
  spec_display_name : string;
  data_type : string
}.

(** Where [import_data] imports from. *)
Inductive import_source : Type :=
| BigQueryInputUri (uri : string)
| GcsInputUris (uris : list string).

Inductive api_call : Type :=
| CallImportData (dataset_display_name : string) (source : import_source)
| CallResult
| CallListColumnSpecs (dataset_display_name : string) (filter_ : option string)
| CallGetModel (model_display_name : string)
| CallDeployModel (model_display_name : string).

(** A printed line: a text, a label followed by an integer, or the tuple
    of a feature. *)
Inductive printed : Type :=
| PText (s : string)
| PInt (label : string) (z : Z)
| PFeature (feat : pyfloat * string).

Inductive event : Type :=
| Called (c : api_call)
| Printed (l : printed).

(** *** Strings *)

(** [s.split(sep)] for a separator of one character. *)
Fixpoint split (sep : ascii) (s : string) : list string :=
  match s with
  | EmptyString => [EmptyString]
  | String c s' =>
      if Ascii.eqb c sep then EmptyString :: split sep s'
      else
        match split sep s' with
        | piece :: pieces => String c piece :: pieces
        | [] => [String c EmptyString]
        end
  end.

(** [sep.join(pieces)]. *)
Definition join (sep : ascii) (pieces : list string) : string :=
  String.concat (String sep EmptyString) pieces.

(** [sep] does not occur in [s]. *)
Fixpoint free_of (sep : ascii) (s : string) : bool :=
  match s with
  | EmptyString => true
  | String c s' => negb (Ascii.eqb c sep) && free_of sep s'
  end.

(** The pieces and the last piece put together again, [sep] behind each
    of the pieces. *)
Fixpoint glue (sep : ascii) (pieces : list string) (last_piece : string)
  : string :=
  match pieces with
  | [] => last_piece
  | piece :: pieces' =>
      String.append piece (String sep (glue sep pieces' last_piece))
  end.

(** [name.split("/")[-1]], the id that is printed for a dataset, a column
    spec and a model. *)
Definition resource_id (name : string) : reply string :=
  match seq_index (split "/" name) (-1) with
  | Some id => Done id
  | None => Failed (PyFailure IndexError)
  end.

(** *** [import_data] *)

Definition import_data
  (client_import_data : string -> import_source -> reply operation)
  (dataset_display_name path : string) : list event * reply unit :=
  let source :=
    if String.prefix "bq" path then BigQueryInputUri path
    else GcsInputUris (split "," path) in
  let call := Called (CallImportData dataset_display_name source) in
  match client_import_data dataset_display_name source with
  | Failed e => ([call], Failed e)
  | Done response =>
      let processing := Printed (PText "Processing import...") in
      match response with
      | Failed e => ([call; processing; Called CallResult], Failed e)
      | Done imported =>
          ([call; processing; Called CallResult;
            Printed (PText (String.append "Data imported. " imported))],
           Done tt)
      end
  end.

(** *** [list_column_specs] *)

(** The lines printed for one column spec, up to the first that fails. *)
Definition column_spec_lines (spec : column_spec) : list event * reply unit :=
  let first := Printed (PText (String.append "Column spec name: " (spec_name spec))) in
  match resource_id (spec_name spec) with
  | Failed e => ([first], Failed e)
  | Done id =>
      ([first;
        Printed (PText (String.append "Column spec id: " id));
        Printed (PText (String.append "Column spec display name: "
                                      (spec_display_name spec)));
        Printed (PText (String.append "Column spec data type: " (data_type spec)))],
       Done tt)
  end.

(** The loop [for column_spec in response], with the [result] so far. *)
Fixpoint column_specs_loop (response result : list column_spec)
  : list event * reply (list column_spec) :=
  match response with
  | [] => ([], Done result)
  | spec :: response' =>
      match column_spec_lines spec with
      | (lines, Failed e) => (lines, Failed e)
      | (lines, Done _) =>
          let (events, r) := column_specs_loop response' (result ++ [spec]) in
          (lines ++ events, r)
      end
  end.

Definition list_column_specs
  (client_list_column_specs : string -> option string -> reply (list column_spec))
  (dataset_display_name : string) (filter_ : option string)
  : list event * reply (list column_spec) :=
  let call := Called (CallListColumnSpecs dataset_display_name filter_) in
  match client_list_column_specs dataset_display_name filter_ with
  | Failed e => ([call], Failed e)
  | Done response =>
      let (events, r) := column_specs_loop response [] in
      (call :: Printed (PText "List of column specs:") :: events, r)
  end.

(** *** [get_model] *)

(** [x == y] on floats. *)
Definition float_equal (x y : pyfloat) : bool :=
  match x, y with
  | NaN, _ | _, NaN => false
  | _, _ => float_eq x y
  end.

(** [a < b] on the tuples [(feature_importance, column_display_name)]:
    the first components decide unless they are equal, and then the
    second do. *)
Definition feat_lt (a b : pyfloat * string) : bool :=
  if float_equal (fst a) (fst b) then string_gt (snd b) (snd a)
  else float_gt (fst b) (fst a).

(** No importance is [NaN]. *)
Definition nan_free (l : list (pyfloat * string)) : Prop :=
  Forall (fun feat => fst feat <> NaN) l.

(** [a >= b] on the tuples of features. *)
Definition feat_ge (a b : pyfloat * string) : Prop := feat_lt a b = false.

(** [feat_list.sort(reverse=True)] is the sort of the Python runtime and
    an argument of [get_model].  Two things are known of it: what it
    returns has the elements of the list, each as often; and where [<]
    orders the elements, that is when no importance is [NaN], what it
    returns is in descending order.  With a [NaN] among the importances
    the order it leaves depends on the steps of the algorithm, and nothing
    is assumed of it. *)
Definition sort_permutes
  (sort : list (pyfloat * string) -> list (pyfloat * string)) : Prop :=
  forall l, Permutation l (sort l).

Definition sort_descends
  (sort : list (pyfloat * string) -> list (pyfloat * string)) : Prop :=
  forall l, nan_free l -> StronglySorted feat_ge (sort l).

(** A sort that has both properties, for the examples: insertion into
    descending order, elements that compare equal keeping their order.  It
    is not the algorithm of the runtime. *)
Fixpoint insert_feat (x : pyfloat * string) (l : list (pyfloat * string))
  : list (pyfloat * string) :=
  match l with
  | [] => [x]
  | y :: l' => if feat_lt x y then y :: insert_feat x l' else x :: l
  end.

Fixpoint sort_reverse (l : list (pyfloat * string)) : list (pyfloat * string) :=
  match l with
  | [] => []
  | x :: l' => insert_feat x (sort_reverse l')
  end.

Definition feature (column : column_info) : pyfloat * string :=
  (feature_importance column, column_display_name column).

Definition tab : string := String "009" EmptyString.

(** [list_sort_reverse] is [list.sort(reverse=True)], and
    [client_get_model n] is what the service answers to the [n]-th call of
    [client.get_model] (counting from 0). *)
Definition get_model
  (list_sort_reverse : list (pyfloat * string) -> list (pyfloat * string))
  (client_get_model : nat -> string -> reply model)
  (model_display_name : string)
  : list event * reply (option model * option (list (pyfloat * string))) :=
  let call := Called (CallGetModel model_display_name) in
  match client_get_model 0%nat model_display_name with
  | Failed (ApiFailure NotFound) =>
      ([call;
        Printed (PText (String.append "Model "
                          (String.append model_display_name " not found.")))],
       Done (None, None))
  | Failed e => ([call], Failed e)
  | Done _ =>
      match client_get_model 1%nat model_display_name with
      | Failed e => ([call; call], Failed e)
      | Done m =>
          let deployment_state_text :=
            if state_eqb (deployment_state m) DEPLOYED then "deployed"
            else "undeployed" in
          let feat_list :=
            list_sort_reverse (map feature (tables_model_column_info m)) in
          let feat_to_show :=
            if (List.length feat_list <? 10)%nat then List.length feat_list
            else 10%nat in
          let name_line :=
            Printed (PText (String.append "Model name: " (name m))) in
          match resource_id (name m) with
          | Failed e => ([call; call; name_line], Failed e)
          | Done id =>
              ([call; call; name_line;
                Printed (PText (String.append "Model id: " id));
                Printed (PText (String.append "Model display name: "
                                              (display_name m)));
                Printed (PText "Features of top importance:")]
               ++ map (fun feat => Printed (PFeature feat))
                      (firstn feat_to_show feat_list)
               ++ [Printed (PText "Model create time:");
                   Printed (PInt (String.append tab "seconds: ")
                                 (create_time_seconds m));
                   Printed (PInt (String.append tab "nanos: ")
                                 (create_time_nanos m));
                   Printed (PText (String.append "Model deployment state: "
                                                 deployment_state_text))],
               Done (Some m, Some feat_list))
          end
      end
  end.

(** The features a run prints. *)
Fixpoint printed_features (events : list event) : list (pyfloat * string) :=
  match events with
  | [] => []
  | Printed (PFeature feat) :: events' => feat :: printed_features events'
  | _ :: events' => printed_features events'
  end.

End AutoML.

(** Models used in the examples: three columns, and eleven columns with
    the importances 1 to 11. *)
Definition example_model : AutoML.model :=
  AutoML.mkModel "projects/p/locations/us-central1/models/TBL42" "bwmodel"
    AutoML.UNDEPLOYED
    [AutoML.mkColumnInfo (Finite 1 (-1)) "bike_id";
     AutoML.mkColumnInfo (Finite 3 (-2)) "start_station_id";
     AutoML.mkColumnInfo (Finite 1 (-1)) "day_of_week"]
    1600000000 42.

Definition wide_model : AutoML.model :=
  AutoML.mkModel "models/TBL43" "bwmodel" AutoML.DEPLOYED
    (map (fun z => AutoML.mkColumnInfo (Finite z 0) "feature")
         [3; 1; 4; 11; 5; 9; 2; 6; 10; 8; 7])
    1600000000 0.

(** ** The component [automl_deploy_tables_model]

    The component installs two packages, creates a client and asks the
    service for the model; what [pip], the constructor of the client and
    the service answer is an argument. *)

Module DeployComponent.

Import AutoML.

Record environment : Type := mkEnvironment {
  (** whether [pip install] of the package exits with status 0 *)
  pip_install : string -> bool;
  (** [automl.TablesClient(...)], with the [api_endpoint] it is given *)
  new_client : string -> string -> option string -> reply unit;
  get_model_reply : string -> reply model;
  deploy_model_reply : string -> reply operation
}.

Inductive event : Type :=
| PipInstall (package : string)
| NewClient (project region : string) (api_endpoint : option string)
| Api (c : api_call)
| LogInfo (message : string)
| LogWarning (e : failure).

(** [subprocess.CalledProcessError], raised by [check=True]. *)
Definition CalledProcessError : failure := ProcessFailure.

Definition protos_package : string := "googleapis-common-protos==1.6.0".
Definition automl_package : string := "google-cloud-automl==0.9.0".

(** The status the [except] clauses give to an exception. *)
Definition status_of_failure (e : failure) : string :=
  match e with
  | ApiFailure NotFound => "not_found"
  | _ => "undeployed"
  end.

(** The [try] statement: the calls and log records it makes, and the
    status it ends with. *)
Definition deploy_status (env : environment) (model_display_name : string)
  : list event * string :=
  let get := Api (CallGetModel model_display_name) in
  match get_model_reply env model_display_name with
  | Failed e => ([get; LogWarning e], status_of_failure e)
  | Done m =>
      if state_eqb (deployment_state m) DEPLOYED then
        ([get;
          LogInfo (String.append "Model "
                     (String.append model_display_name " already deployed"))],
         "deployed")
      else
        let deploying :=
          [get;
           LogInfo (String.append "Deploying model " model_display_name);
           Api (CallDeployModel model_display_name)] in
        match deploy_model_reply env model_display_name with
        | Failed e => (deploying ++ [LogWarning e], status_of_failure e)
        | Done response =>
            match response with
            | Failed e =>
                (deploying ++ [Api CallResult; LogWarning e],
                 status_of_failure e)
            | Done deployed =>
                (deploying ++
                 [Api CallResult;
                  LogInfo (String.append "Model deployed. " deployed)],
                 "deployed")
            end
        end
  end.

(** [if api_endpoint:] holds for a string that is not empty. *)
Definition truthy (api_endpoint : option string) : option string :=
  match api_endpoint with
  | Some s => if String.eqb s "" then None else Some s
  | None => None
  end.

Definition automl_deploy_tables_model (env : environment)
  (gcp_project_id gcp_region model_display_name : string)
  (api_endpoint : option string) : list event * reply (string * string) :=
  if negb (pip_install env protos_package) then
    ([PipInstall protos_package], Failed CalledProcessError)
  else if negb (pip_install env automl_package) then
    ([PipInstall protos_package; PipInstall automl_package],
     Failed CalledProcessError)
  else
    let prelude :=
      [PipInstall protos_package; PipInstall automl_package;
       NewClient gcp_project_id gcp_region (truthy api_endpoint)] in
    match new_client env gcp_project_id gcp_region (truthy api_endpoint) with
    | Failed e => (prelude, Failed e)
    | Done _ =>
        let (events, status) := deploy_status env model_display_name in
        (prelude ++ events ++ [LogInfo (String.append "Model status: " status)],
         Done (model_display_name, status))
    end.

(** The calls of [client.deploy_model] in a run. *)
Fixpoint deploy_calls (events : list event) : list string :=
  match events with
  | [] => []
  | Api (CallDeployModel n) :: events' => n :: deploy_calls events'
  | _ :: events' => deploy_calls events'
  end.

End DeployComponent.

(** * Properties *)

(** ** The logger *)

Lemma emit_all_nil lg : emit_all [] lg = lg.
Proof.
  unfold emit_all. destruct lg as [l rs]; simpl.
  rewrite app_nil_r. now destruct (l <=? INFO).
Qed.

Lemma emit_as_emit_all r lg : emit r lg = emit_all [r] lg.
Proof. reflexivity. Qed.

Lemma emit_all_app rs rs' lg :
  emit_all rs' (emit_all rs lg) = emit_all (rs ++ rs') lg.
Proof.
  unfold emit_all. destruct (level lg <=? INFO) eqn:E; simpl.
  - rewrite E. now rewrite app_assoc.
  - now rewrite E.
Qed.

(** ** Sequences and subscription *)

Lemma is_checked_iff k : str_in k checked_metrics = true <-> is_checked k.
Proof.
  unfold str_in, checked_metrics, is_checked; simpl.
  rewrite !orb_true_iff, !String.eqb_eq. intuition discriminate.
Qed.

Lemma not_checked_iff k : str_in k checked_metrics = false <-> ~ is_checked k.
Proof.
  rewrite <- is_checked_iff. now destruct (str_in k checked_metrics).
Qed.

Lemma seq_index_nil {A : Type} (i : Z) : seq_index (@nil A) i = None.
Proof.
  unfold seq_index; simpl.
  destruct (i <? 0) eqn:E;
    [apply Z.ltb_lt in E | apply Z.ltb_ge in E].
  - destruct (Z.leb_spec 0 (i + 0)); [lia | reflexivity].
  - destruct (Z.ltb_spec i 0); [lia |]. now rewrite andb_false_r.
Qed.

Lemma seq_index_last {A : Type} (earlier : list A) (x : A) :
  seq_index (earlier ++ [x]) (-1) = Some x.
Proof.
  unfold seq_index. rewrite length_app. simpl List.length.
  change (-1 <? 0) with true. cbv iota.
  set (n := List.length earlier).
  replace (-1 + Z.of_nat (n + 1)) with (Z.of_nat n) by lia.
  destruct (Z.leb_spec 0 (Z.of_nat n)); [|lia].
  destruct (Z.ltb_spec (Z.of_nat n) (Z.of_nat (n + 1))); [|lia].
  cbv [andb]. rewrite Nat2Z.id. subst n.
  rewrite nth_error_app2 by lia. now rewrite Nat.sub_diag.
Qed.

Lemma seq_index_first {A : Type} (l : list A) (x : A) :
  seq_index l (-1) = Some x -> exists y, seq_index l 0 = Some y.
Proof.
  destruct l as [|y l].
  - rewrite seq_index_nil. discriminate.
  - intros _. exists y. unfold seq_index. simpl List.length.
    destruct (Z.ltb_spec 0 (Z.of_nat (S (List.length l)))); [reflexivity | lia].
Qed.

Lemma getitem_int_first mk final :
  getitem_int mk (-1) = Returned final ->
  exists first, getitem_int mk 0 = Returned first.
Proof.
  destruct mk; simpl; try discriminate.
  - destruct (seq_index (utf8_chars s) (-1)) eqn:E; [|discriminate].
    intros _. apply seq_index_first in E as [y ->]. eauto.
  - destruct (seq_index l (-1)) eqn:E; [|discriminate].
    intros _. apply seq_index_first in E as [y ->]. eauto.
Qed.

Lemma final_value_list report k earlier x :
  dict_get report k = Some (JList (earlier ++ [x])) ->
  final_value (JDict report) k = Returned x.
Proof.
  intros H. unfold final_value; simpl. rewrite H; simpl.
  now rewrite seq_index_last.
Qed.

(** ** The loop *)

(** A run of the loop appends to the log a list of records that does not
    depend on the logger, and returns what [decision] computes. *)
Lemma threshold_loop_run mi items :
  exists emitted, forall lg,
    threshold_loop mi items lg = (emit_all emitted lg, decision mi items).
Proof.
  induction items as [|[k v] rest [em IH]].
  - exists []. intros lg. now rewrite emit_all_nil.
  - cbn [threshold_loop decision]. unfold entry_check, final_value.
    unfold bind, logging_info, lift, ret.
    destruct (str_in k checked_metrics).
    + destruct (getitem_str mi k) as [mk|e].
      * destruct (getitem_int mk (-1)) as [final|e] eqn:Efinal.
        -- destruct (py_gt final v) as [[|]|e].
           ++ destruct (getitem_int_first _ _ Efinal) as [first ->].
              exists [LogEntry k v; LogReturningFalse first v]. intros lg.
              now rewrite !emit_as_emit_all, emit_all_app.
           ++ exists (LogEntry k v :: em). intros lg.
              now rewrite IH, emit_as_emit_all, emit_all_app.
           ++ exists [LogEntry k v]. intros lg. reflexivity.
        -- exists [LogEntry k v]. intros lg. reflexivity.
      * exists [LogEntry k v]. intros lg. reflexivity.
    + exists (LogEntry k v :: em). intros lg.
      now rewrite IH, emit_as_emit_all, emit_all_app.
Qed.

Lemma threshold_loop_result mi items lg :
  result (threshold_loop mi items) lg = decision mi items.
Proof.
  destruct (threshold_loop_run mi items) as [em H].
  unfold result. now rewrite H.
Qed.

Lemma check_result items mi lg :
  result (regression_threshold_check (JDict items) mi) lg = decision mi items.
Proof. apply threshold_loop_result. Qed.

(** *** One entry at a time *)

Lemma entry_check_unchecked mi k v :
  ~ is_checked k -> entry_check mi k v = Returned false.
Proof.
  intros H. apply not_checked_iff in H. unfold entry_check. now rewrite H.
Qed.

Lemma entry_check_exceeds mi k v :
  is_checked k -> exceeds mi k v -> entry_check mi k v = Returned true.
Proof.
  intros Hk (final & Hf & Hgt). apply is_checked_iff in Hk.
  unfold entry_check. now rewrite Hk, Hf.
Qed.

Lemma entry_check_passes mi entry :
  passes mi entry -> entry_check mi (fst entry) (snd entry) = Returned false.
Proof.
  intros H. unfold entry_check.
  destruct (str_in (fst entry) checked_metrics) eqn:E; [|reflexivity].
  apply is_checked_iff in E. destruct (H E) as (final & Hf & Hgt).
  now rewrite Hf.
Qed.

Lemma entry_check_true_inv mi k v :
  entry_check mi k v = Returned true -> is_checked k /\ exceeds mi k v.
Proof.
  unfold entry_check.
  destruct (str_in k checked_metrics) eqn:E; [|discriminate].
  apply is_checked_iff in E.
  destruct (final_value mi k) as [final|e] eqn:Hf; [|discriminate].
  intros Hgt. split; [assumption|]. now exists final.
Qed.

Lemma entry_check_false_inv mi k v :
  entry_check mi k v = Returned false -> passes mi (k, v).
Proof.
  unfold entry_check, passes; cbn [fst snd].
  destruct (str_in k checked_metrics) eqn:E.
  - destruct (final_value mi k) as [final|e] eqn:Hf; [|easy].
    intros Hgt _. now exists final.
  - apply not_checked_iff in E. intros _ Hk. now destruct E.
Qed.

(** Entries the loop gets past do not change the decision. *)
Lemma decision_past mi pre items :
  Forall (passes mi) pre -> decision mi (pre ++ items) = decision mi items.
Proof.
  induction 1 as [|[k v] pre H _ IH]; [reflexivity|].
  cbn [app decision]. pose proof (entry_check_passes mi (k, v) H) as E.
  cbn [fst snd] in E. now rewrite E.
Qed.

Lemma decision_at mi pre k v post :
  Forall (passes mi) pre ->
  decision mi (pre ++ (k, v) :: post) =
  match entry_check mi k v with
  | Returned true => Returned HOLD
  | Returned false => decision mi post
  | Raised e => Raised e
  end.
Proof. intros H. now rewrite decision_past. Qed.

(** The loop returns one of the two tokens, [HOLD] exactly when it meets a
    compared entry whose final observation is above the threshold. *)
Lemma decision_tokens mi items o :
  decision mi items = Returned o -> o = DEPLOY \/ o = HOLD.
Proof.
  induction items as [|[k v] rest IH]; cbn [decision].
  - intros H. injection H as <-. now left.
  - destruct (entry_check mi k v) as [[|]|e]; [|assumption|easy].
    intros H. injection H as <-. now right.
Qed.

Lemma decision_hold mi items :
  decision mi items = Returned HOLD ->
  exists k v, In (k, v) items /\ is_checked k /\ exceeds mi k v.
Proof.
  induction items as [|[k v] rest IH]; cbn [decision].
  - discriminate.
  - destruct (entry_check mi k v) as [[|]|e] eqn:E; [| |easy].
    + intros _. apply entry_check_true_inv in E as [Hk He].
      exists k, v. simpl; auto.
    + intros H. destruct (IH H) as (k' & v' & Hin & Hk & He).
      exists k', v'. simpl; auto.
Qed.

Lemma decision_deploy mi items :
  decision mi items = Returned DEPLOY -> Forall (passes mi) items.
Proof.
  induction items as [|[k v] rest IH]; cbn [decision].
  - constructor.
  - destruct (entry_check mi k v) as [[|]|e] eqn:E; [easy| |easy].
    intros H. constructor; [now apply entry_check_false_inv | auto].
Qed.

Lemma passes_not_exceeds mi k v :
  passes mi (k, v) -> is_checked k -> ~ exceeds mi k v.
Proof.
  intros Hp Hk (final & Hf & Hgt). destruct (Hp Hk) as (final' & Hf' & Hgt').
  simpl in *. congruence.
Qed.

(** ** The decision *)

Example scenario2_holds :
  result (regression_threshold_check
            (JDict [("root_mean_squared_error", JInt 2000)])
            (JDict [("root_mean_squared_error",
                     JList [JInt 3000; JInt 2500; JInt 2200])]))
         fresh_logger = Returned HOLD.
Proof. reflexivity. Qed.

(** C1, as the specification states it, fails: the thresholds
    [{"loss": 1}] and the report [{"loss": [5]}] are accepted without error
    and the final observation violates the threshold of an error-style
    metric, yet the component returns ['deploy']. *)
Lemma loss_above_threshold_deploys :
  ~ Spec.hold_iff_violation [("loss", JInt 1)] [("loss", JList [JInt 5])]
      fresh_logger.
Proof.
  intros H. destruct (H DEPLOY eq_refl) as [_ [Hd _]].
  apply Hd; [reflexivity|].
  exists "loss", (JInt 1). split; [now left|].
  exists [JInt 5], (JInt 5). repeat split.
Qed.

(** C1 (amended): when [regression_threshold_check] returns, it returns
    the token ['False'] if and only if some entry of the thresholds named
    [root_mean_squared_error] or [mae] has its final (last) observation
    above its threshold, and the token ['deploy'] if and only if there is no
    such entry; entries with other names are not compared. *)
Theorem hold_iff_checked_metric_exceeds items mi lg o :
  result (regression_threshold_check (JDict items) mi) lg = Returned o ->
  (o = HOLD <-> some_checked_exceeds mi items) /\
  (o = DEPLOY <-> ~ some_checked_exceeds mi items).
Proof.
  rewrite check_result. intros H.
  destruct (decision_tokens _ _ _ H) as [-> | ->].
  - assert (Hno : ~ some_checked_exceeds mi items).
    { intros (k & v & Hin & Hk & He).
      apply decision_deploy in H. rewrite Forall_forall in H.
      exact (passes_not_exceeds mi k v (H _ Hin) Hk He). }
    split; split; intros H'; try discriminate H'; tauto.
  - pose proof (decision_hold _ _ H) as Hex.
    split; split; intros H'; try discriminate H'; tauto.
Qed.

Lemma hold_iff_checked_metric_exceeds_witness :
  let items := [("mae", JInt 10)] in
  let mi := JDict [("mae", JList [JInt 50; JInt 40])] in
  result (regression_threshold_check (JDict items) mi) fresh_logger
    = Returned HOLD /\
  ((HOLD = HOLD <-> some_checked_exceeds mi items) /\
   (HOLD = DEPLOY <-> ~ some_checked_exceeds mi items)).
Proof.
  split; [reflexivity|].
  apply (hold_iff_checked_metric_exceeds
           [("mae", JInt 10)] (JDict [("mae", JList [JInt 50; JInt 40])])
           fresh_logger HOLD).
  reflexivity.
Defined.

(** C2, as the specification states it, fails: with no direction supplied,
    ["accuracy"] below its threshold (0.5 against 0.75) does not trigger
    HOLD, and neither does the error-style metric ["loss"] above its
    threshold (5 against 1). *)
Lemma accuracy_below_threshold_deploys :
  ~ Spec.default_direction_applied "accuracy" three_quarters half fresh_logger /\
  ~ Spec.default_direction_applied "loss" (JInt 1) (JInt 5) fresh_logger.
Proof.
  split; intros H; specialize (H eq_refl); discriminate H.
Qed.

(** C2 (amended): an entry named [root_mean_squared_error] or [mae] is
    compared lower-is-better: a final observation above the threshold
    triggers ['False'], and one that is not above it leaves the decision to
    the remaining entries.  An entry with any other name is not compared
    at all: the decision is that of the remaining entries.  In particular
    the thresholds [{"accuracy": 0.75}] with the report
    [{"accuracy": [0.5]}] give ['deploy']. *)
Theorem direction_by_metric_name mi k v rest lg :
  (is_checked k -> exceeds mi k v ->
   result (regression_threshold_check (JDict ((k, v) :: rest)) mi) lg
     = Returned HOLD) /\
  (is_checked k -> within mi k v ->
   result (regression_threshold_check (JDict ((k, v) :: rest)) mi) lg
     = result (regression_threshold_check (JDict rest) mi) lg) /\
  (~ is_checked k ->
   result (regression_threshold_check (JDict ((k, v) :: rest)) mi) lg
     = result (regression_threshold_check (JDict rest) mi) lg) /\
  result (regression_threshold_check
            (JDict [("accuracy", three_quarters)])
            (JDict [("accuracy", JList [half])])) lg = Returned DEPLOY.
Proof.
  rewrite !check_result. cbn [decision]. repeat split.
  - intros Hk He. now rewrite entry_check_exceeds.
  - intros Hk Hw.
    pose proof (entry_check_passes mi (k, v) (fun _ => Hw)) as E.
    cbn [fst snd] in E. now rewrite E.
  - intros Hk. now rewrite entry_check_unchecked.
Qed.

Lemma direction_by_metric_name_witness :
  let mi := JDict [("mae", JList [JInt 50; JInt 40]);
                   ("accuracy", JList [half])] in
  (is_checked "mae" /\ exceeds mi "mae" (JInt 10) /\
   result (regression_threshold_check
             (JDict [("mae", JInt 10); ("accuracy", three_quarters)]) mi)
          fresh_logger = Returned HOLD) /\
  (is_checked "mae" /\ within mi "mae" (JInt 40) /\
   result (regression_threshold_check
             (JDict [("mae", JInt 40); ("accuracy", three_quarters)]) mi)
          fresh_logger
   = result (regression_threshold_check
               (JDict [("accuracy", three_quarters)]) mi) fresh_logger) /\
  (~ is_checked "accuracy" /\
   result (regression_threshold_check
             (JDict [("accuracy", three_quarters); ("mae", JInt 40)]) mi)
          fresh_logger
   = result (regression_threshold_check (JDict [("mae", JInt 40)]) mi)
            fresh_logger).
Proof.
  intros mi.
  assert (Hk : is_checked "mae") by (right; reflexivity).
  assert (Hn : ~ is_checked "accuracy") by (intros [H | H]; discriminate H).
  assert (He : exceeds mi "mae" (JInt 10))
    by (exists (JInt 40); split; reflexivity).
  assert (Hw : within mi "mae" (JInt 40))
    by (exists (JInt 40); split; reflexivity).
  split; [|split].
  - split; [exact Hk | split; [exact He |]].
    exact (proj1 (direction_by_metric_name mi "mae" (JInt 10)
                    [("accuracy", three_quarters)] fresh_logger) Hk He).
  - split; [exact Hk | split; [exact Hw |]].
    exact (proj1 (proj2 (direction_by_metric_name mi "mae" (JInt 40)
                    [("accuracy", three_quarters)] fresh_logger)) Hk Hw).
  - split; [exact Hn |].
    exact (proj1 (proj2 (proj2 (direction_by_metric_name mi "accuracy"
                    three_quarters [("mae", JInt 40)] fresh_logger))) Hn).
Defined.

(** ** Where the loop stops *)

(** What the loop does with the first entries does not depend on the
    entries behind them, except through what the loop does there. *)
Lemma threshold_loop_congr mi pre items items' :
  (forall lg, threshold_loop mi items lg = threshold_loop mi items' lg) ->
  forall lg,
    threshold_loop mi (pre ++ items) lg = threshold_loop mi (pre ++ items') lg.
Proof.
  intros H. induction pre as [|[k v] pre IH]; intros lg; [apply H|].
  cbn [app threshold_loop]. unfold bind, logging_info, lift.
  destruct (str_in k checked_metrics); [|apply IH].
  destruct (getitem_str mi k) as [mk|e]; [|reflexivity].
  destruct (getitem_int mk (-1)) as [final|e]; [|reflexivity].
  destruct (py_gt final v) as [[|]|e]; [reflexivity | apply IH | reflexivity].
Qed.

(** At an entry whose final observation is above the threshold the loop
    ends, whatever follows. *)
Lemma threshold_loop_stops mi k v post post' lg :
  is_checked k -> exceeds mi k v ->
  threshold_loop mi ((k, v) :: post) lg = threshold_loop mi ((k, v) :: post') lg.
Proof.
  intros Hk (final & Hf & Hgt). apply is_checked_iff in Hk.
  unfold final_value in Hf.
  cbn [threshold_loop]. unfold bind, logging_info, lift. rewrite Hk.
  destruct (getitem_str mi k) as [mk|e]; [|reflexivity].
  rewrite Hf, Hgt. reflexivity.
Qed.

(** C3, as the specification states it, fails: in the thresholds
    [{"loss": 1, "mse": 1}] with the report [{"loss": [5], "mse": [5]}]
    two error-style metrics violate their thresholds, and the component
    returns ['deploy']. *)
Lemma two_violations_deploy :
  ~ Spec.hold_on_several_violations
      [("loss", JInt 1); ("mse", JInt 1)]
      [("loss", JList [JInt 5]); ("mse", JList [JInt 5])]
      fresh_logger.
Proof.
  intros H.
  assert (Hloss : Spec.violating_entry
                    [("loss", JList [JInt 5]); ("mse", JList [JInt 5])]
                    "loss" (JInt 1))
    by (exists [JInt 5], (JInt 5); repeat split).
  assert (Hmse : Spec.violating_entry
                   [("loss", JList [JInt 5]); ("mse", JList [JInt 5])]
                   "mse" (JInt 1))
    by (exists [JInt 5], (JInt 5); repeat split).
  assert (Hin1 : In ("loss", JInt 1) [("loss", JInt 1); ("mse", JInt 1)])
    by (left; reflexivity).
  assert (Hin2 : In ("mse", JInt 1) [("loss", JInt 1); ("mse", JInt 1)])
    by (right; left; reflexivity).
  assert (Hne : "loss" <> "mse") by discriminate.
  discriminate (H (ex_intro _ "loss" (ex_intro _ (JInt 1)
                    (ex_intro _ "mse" (ex_intro _ (JInt 1)
                       (conj Hne (conj Hin1 (conj Hin2 (conj Hloss Hmse))))))))).
Qed.

(** C3 (amended): when an entry named [root_mean_squared_error] or [mae]
    has its final observation above its threshold, and every entry before
    it is one the loop gets past, the component returns ['False'] at that
    entry and neither evaluates nor logs any later entry, whether or not a
    later entry is above its threshold too: the whole run (log and result)
    is the run on the thresholds cut off behind that entry. *)
Theorem hold_at_first_exceeding_entry mi pre k v post lg :
  Forall (passes mi) pre -> is_checked k -> exceeds mi k v ->
  result (regression_threshold_check (JDict (pre ++ (k, v) :: post)) mi) lg
    = Returned HOLD /\
  regression_threshold_check (JDict (pre ++ (k, v) :: post)) mi lg
    = regression_threshold_check (JDict (pre ++ [(k, v)])) mi lg.
Proof.
  intros Hpre Hk He. split.
  - rewrite check_result, decision_at by assumption.
    now rewrite entry_check_exceeds.
  - unfold regression_threshold_check, bind, lift; cbn [dict_items].
    apply threshold_loop_congr. intros lg'.
    now apply threshold_loop_stops.
Qed.

Lemma hold_at_first_exceeding_entry_witness :
  let mi := JDict [("mae", JList [JInt 50; JInt 40]);
                   ("root_mean_squared_error", JList [JInt 3000; JInt 2200])] in
  let pre := [("accuracy", three_quarters)] in
  let post := [("root_mean_squared_error", JInt 2000)] in
  Forall (passes mi) pre /\ is_checked "mae" /\ exceeds mi "mae" (JInt 10) /\
  (result (regression_threshold_check
             (JDict (pre ++ ("mae", JInt 10) :: post)) mi) fresh_logger
     = Returned HOLD /\
   regression_threshold_check (JDict (pre ++ ("mae", JInt 10) :: post)) mi
                              fresh_logger
     = regression_threshold_check (JDict (pre ++ [("mae", JInt 10)])) mi
                                  fresh_logger).
Proof.
  intros mi pre post.
  assert (Hpre : Forall (passes mi) pre).
  { constructor; [|constructor]. intros [H | H]; discriminate H. }
  assert (Hk : is_checked "mae") by (right; reflexivity).
  assert (He : exceeds mi "mae" (JInt 10))
    by (exists (JInt 40); split; reflexivity).
  split; [exact Hpre | split; [exact Hk | split; [exact He |]]].
  exact (hold_at_first_exceeding_entry mi pre "mae" (JInt 10) post
           fresh_logger Hpre Hk He).
Defined.

(** ** Malformed documents *)

(** C4, as the specification states it, fails: for the report
    [{"mae": [50, 40]}] and the thresholds [{"rmse": 10}] the metric
    ["rmse"] is absent from the report and the evaluation does not fail
    (it returns ['deploy']). *)
Lemma missing_rmse_deploys :
  ~ Spec.missing_metric_fails
      [("rmse", JInt 10)] [("mae", JList [JInt 50; JInt 40])] fresh_logger.
Proof.
  intros H.
  destruct (H "rmse" (JInt 10) (or_introl eq_refl) eq_refl) as [e He].
  discriminate He.
Qed.

(** C4 (amended): when an entry named [root_mean_squared_error] or [mae]
    is absent from the report, and every entry before it is one the loop
    gets past, the evaluation raises [KeyError] for that name.  Names other
    than these two are not looked up: for the report [{"mae": [50, 40]}]
    and the thresholds [{"rmse": 10}] the evaluation returns ['deploy']. *)
Theorem missing_checked_metric_raises report pre k v post lg :
  Forall (passes (JDict report)) pre -> is_checked k ->
  dict_get report k = None ->
  result (regression_threshold_check (JDict (pre ++ (k, v) :: post))
                                     (JDict report)) lg
    = Raised (KeyError (JStr k)) /\
  result (regression_threshold_check
            (JDict [("rmse", JInt 10)])
            (JDict [("mae", JList [JInt 50; JInt 40])])) lg = Returned DEPLOY.
Proof.
  intros Hpre Hk Hget. split; [|reflexivity].
  rewrite check_result, decision_at by assumption.
  apply is_checked_iff in Hk.
  unfold entry_check, final_value, getitem_str. now rewrite Hk, Hget.
Qed.

Lemma missing_checked_metric_raises_witness :
  let report := [("mae", JList [JInt 50; JInt 40])] in
  let pre := [("mae", JInt 100)] in
  Forall (passes (JDict report)) pre /\
  is_checked "root_mean_squared_error" /\
  dict_get report "root_mean_squared_error" = None /\
  result (regression_threshold_check
            (JDict (pre ++ [("root_mean_squared_error", JInt 2000)]))
            (JDict report)) fresh_logger
    = Raised (KeyError (JStr "root_mean_squared_error")).
Proof.
  intros report pre.
  assert (Hpre : Forall (passes (JDict report)) pre).
  { constructor; [|constructor]. intros _.
    exists (JInt 40). split; reflexivity. }
  assert (Hk : is_checked "root_mean_squared_error") by (left; reflexivity).
  split; [exact Hpre | split; [exact Hk | split; [reflexivity |]]].
  exact (proj1 (missing_checked_metric_raises report pre
                  "root_mean_squared_error" (JInt 2000) [] fresh_logger
                  Hpre Hk eq_refl)).
Defined.

(** C5, as the specification states it, fails: for the report
    [{"rmse": []}] and the thresholds [{"rmse": 10}] the metric has no
    observation and the evaluation does not fail (it returns ['deploy']). *)
Lemma empty_rmse_deploys :
  ~ Spec.empty_observations_fail
      [("rmse", JInt 10)] [("rmse", JList [])] fresh_logger.
Proof.
  intros H.
  destruct (H "rmse" (JInt 10) (or_introl eq_refl) eq_refl) as [e He].
  discriminate He.
Qed.

(** C5 (amended): when an entry named [root_mean_squared_error] or [mae]
    is present in the report with an empty observation list, and every
    entry before it is one the loop gets past, the evaluation raises
    [IndexError].  Names other than these two are not looked up: for the
    report [{"rmse": []}] and the thresholds [{"rmse": 10}] the evaluation
    returns ['deploy']. *)
Theorem empty_checked_metric_raises report pre k v post lg :
  Forall (passes (JDict report)) pre -> is_checked k ->
  dict_get report k = Some (JList []) ->
  result (regression_threshold_check (JDict (pre ++ (k, v) :: post))
                                     (JDict report)) lg
    = Raised IndexError /\
  result (regression_threshold_check
            (JDict [("rmse", JInt 10)]) (JDict [("rmse", JList [])])) lg
    = Returned DEPLOY.
Proof.
  intros Hpre Hk Hget. split; [|reflexivity].
  rewrite check_result, decision_at by assumption.
  apply is_checked_iff in Hk.
  unfold entry_check, final_value, getitem_str. rewrite Hk, Hget.
  cbn [getitem_int]. now rewrite seq_index_nil.
Qed.

Lemma empty_checked_metric_raises_witness :
  let report := [("mae", JList [])] in
  Forall (passes (JDict report)) [] /\
  is_checked "mae" /\
  dict_get report "mae" = Some (JList []) /\
  result (regression_threshold_check (JDict [("mae", JInt 10)])
                                     (JDict report)) fresh_logger
    = Raised IndexError.
Proof.
  intros report.
  assert (Hk : is_checked "mae") by (right; reflexivity).
  split; [constructor | split; [exact Hk | split; [reflexivity |]]].
  exact (proj1 (empty_checked_metric_raises report [] "mae" (JInt 10) []
                  fresh_logger (Forall_nil _) Hk eq_refl)).
Defined.

Lemma py_gt_numbers a b x y :
  as_number a = Some x -> as_number b = Some y ->
  py_gt a b = Returned (float_gt x y).
Proof.
  destruct a; try discriminate; destruct b; try discriminate;
    cbn [py_gt]; intros -> ->; reflexivity.
Qed.

Lemma py_gt_number_other a b x :
  as_number a = Some x -> as_number b = None -> py_gt a b = Raised TypeError.
Proof.
  destruct a; try discriminate; destruct b; try discriminate;
    cbn [py_gt]; intros -> ?; reflexivity.
Qed.

(** C8, as the specification states it, fails: the thresholds
    [{"accuracy": "high"}] have a non-numeric threshold and the component
    returns ['deploy'] for the report [{"accuracy": [0.5]}]; the thresholds
    [{"mae": "b"}] have one too and the component returns ['False'] for the
    report [{"mae": ["c"]}]. *)
Lemma string_threshold_decides :
  ~ Spec.non_numeric_threshold_fails
      [("accuracy", JStr "high")] [("accuracy", JList [half])] fresh_logger /\
  ~ Spec.non_numeric_threshold_fails
      [("mae", JStr "b")] [("mae", JList [JStr "c"])] fresh_logger.
Proof.
  split; intros H.
  - destruct (H "accuracy" (JStr "high") (or_introl eq_refl) eq_refl) as [e He].
    discriminate He.
  - destruct (H "mae" (JStr "b") (or_introl eq_refl) eq_refl) as [e He].
    discriminate He.
Qed.

(** C8 (amended): when an entry named [root_mean_squared_error] or [mae]
    has a threshold that is not a number (a JSON null, string, array or
    object), the final observation of that metric is a number, and every
    entry before it is one the loop gets past, the evaluation raises
    [TypeError].  The thresholds of entries with other names are never
    inspected. *)
Theorem non_numeric_checked_threshold_raises mi pre k v post final lg :
  Forall (passes mi) pre -> is_checked k ->
  as_number v = None ->
  final_value mi k = Returned final -> Spec.is_number final ->
  result (regression_threshold_check (JDict (pre ++ (k, v) :: post)) mi) lg
    = Raised TypeError.
Proof.
  intros Hpre Hk Hv Hf Hnum.
  rewrite check_result, decision_at by assumption.
  apply is_checked_iff in Hk. unfold entry_check. rewrite Hk, Hf.
  destruct (as_number final) as [x|] eqn:Ex; [|now destruct Hnum].
  now rewrite (py_gt_number_other _ _ _ Ex Hv).
Qed.

Lemma non_numeric_checked_threshold_raises_witness :
  let mi := JDict [("mae", JList [JInt 50; JInt 40])] in
  Forall (passes mi) [("accuracy", JStr "high")] /\
  is_checked "mae" /\
  as_number JNull = None /\
  final_value mi "mae" = Returned (JInt 40) /\
  Spec.is_number (JInt 40) /\
  result (regression_threshold_check
            (JDict ([("accuracy", JStr "high")] ++ [("mae", JNull)])) mi)
         fresh_logger
    = Raised TypeError.
Proof.
  intros mi.
  assert (Hpre : Forall (passes mi) [("accuracy", JStr "high")]).
  { constructor; [|constructor]. intros [H | H]; discriminate H. }
  assert (Hk : is_checked "mae") by (right; reflexivity).
  assert (Hnum : Spec.is_number (JInt 40)) by discriminate.
  split; [exact Hpre | split; [exact Hk | split; [reflexivity |
    split; [reflexivity | split; [exact Hnum |]]]]].
  exact (non_numeric_checked_threshold_raises mi [("accuracy", JStr "high")]
           "mae" JNull [] (JInt 40) fresh_logger Hpre Hk eq_refl eq_refl Hnum).
Defined.

(** ** The last observation *)

Example utf8_chars_try :
  utf8_chars (String "097" (String "195" (String "169" (String "122" EmptyString))))
  = [String "097" EmptyString;
     String "195" (String "169" EmptyString);
     String "122" EmptyString].
Proof. reflexivity. Qed.

(** A string observation is indexed by characters: the last character of
    ["a\u00ea"] is the two bytes of ["\u00ea"], which is above
    ["\u00e9"]. *)
Example non_ascii_observation :
  result (regression_threshold_check
            (JDict [("mae", JStr (String "195" (String "169" EmptyString)))])
            (JDict [("mae", JStr (String "097" (String "195"
                                    (String "170" EmptyString))))]))
         fresh_logger = Returned HOLD.
Proof. reflexivity. Qed.

(** C6, as the specification states it, fails: ["loss"] is a thresholded
    error-style metric with the observations [[1800, 2200]] and the
    threshold 2000; its last observation violates the threshold, but the
    component compares no observation of it at all and returns
    ['deploy']. *)
Lemma loss_is_not_compared :
  ~ Spec.last_observation_compared "loss" (JInt 2000) [JInt 1800; JInt 2200]
      fresh_logger.
Proof.
  intros H. specialize (H [JInt 1800] (JInt 2200) eq_refl). discriminate H.
Qed.

(** C6 (amended): for an entry named [root_mean_squared_error] or [mae]
    that the loop reaches, and whose observations in the report are a
    non-empty list, the value compared against the threshold is the last
    element of the list, whatever the earlier elements are: the component
    returns ['False'] there exactly when [last > threshold] holds, goes on
    to the remaining entries when it does not, and raises what the
    comparison raises.  In particular the report
    [{"root_mean_squared_error": [3000, 2500, 1800]}] with the threshold
    2000 gives ['deploy'], although the earlier observations are above the
    threshold. *)
Theorem last_observation_is_compared
  report pre k v post earlier final lg :
  Forall (passes (JDict report)) pre -> is_checked k ->
  dict_get report k = Some (JList (earlier ++ [final])) ->
  result (regression_threshold_check (JDict (pre ++ (k, v) :: post))
                                     (JDict report)) lg
  = match py_gt final v with
    | Returned true => Returned HOLD
    | Returned false =>
        result (regression_threshold_check (JDict post) (JDict report)) lg
    | Raised e => Raised e
    end /\
  result (regression_threshold_check
            (JDict [("root_mean_squared_error", JInt 2000)])
            (JDict [("root_mean_squared_error",
                     JList [JInt 3000; JInt 2500; JInt 1800])])) lg
    = Returned DEPLOY.
Proof.
  intros Hpre Hk Hget. split; [|reflexivity].
  rewrite !check_result, decision_at by assumption.
  apply is_checked_iff in Hk. unfold entry_check.
  now rewrite Hk, (final_value_list _ _ _ _ Hget).
Qed.

Lemma last_observation_is_compared_witness :
  let report := [("mae", JList ([JInt 5; JInt 50] ++ [JInt 40]))] in
  let pre := [("accuracy", three_quarters)] in
  Forall (passes (JDict report)) pre /\
  is_checked "mae" /\
  dict_get report "mae" = Some (JList ([JInt 5; JInt 50] ++ [JInt 40])) /\
  py_gt (JInt 40) (JInt 10) = Returned true /\
  result (regression_threshold_check
            (JDict (pre ++ [("mae", JInt 10)])) (JDict report)) fresh_logger
    = Returned HOLD.
Proof.
  intros report pre.
  assert (Hpre : Forall (passes (JDict report)) pre).
  { constructor; [|constructor]. intros [H | H]; discriminate H. }
  assert (Hk : is_checked "mae") by (right; reflexivity).
  split; [exact Hpre | split; [exact Hk | split; [reflexivity |
    split; [reflexivity |]]]].
  exact (proj1 (last_observation_is_compared report pre "mae" (JInt 10) []
                  [JInt 5; JInt 50] (JInt 40) fresh_logger Hpre Hk eq_refl)).
Defined.

(** ** The component as a whole *)

Lemma emit_all_after_setLevel rs lg :
  emit_all rs (set_level INFO lg) = mkLogger INFO (records lg ++ rs).
Proof. reflexivity. Qed.

Ltac log_norm :=
  rewrite ?emit_as_emit_all, ?emit_all_app, ?emit_all_after_setLevel;
  cbn [app].

(** A call of the component sets the level of the root logger to [INFO],
    appends to the log a list of records that does not depend on the
    logger, and returns or raises what [eval_decision] computes. *)
Lemma eval_metrics_run json_loads metrics thresholds :
  exists emitted, forall lg,
    eval_metrics json_loads metrics thresholds lg
    = (mkLogger INFO (records lg ++ emitted),
       eval_decision json_loads metrics thresholds).
Proof.
  unfold eval_metrics, eval_decision, regression_threshold_check.
  unfold bind, setLevel, lift, logging_info, ret.
  destruct (json_loads thresholds) as [td|e].
  2:{ exists []. intros lg. now rewrite app_nil_r. }
  destruct (json_loads metrics) as [md|e].
  2:{ exists [LogThresholds td; LogMetrics metrics]. intros lg.
      log_norm. reflexivity. }
  pose (head := [LogThresholds td; LogMetrics metrics; LogGotMetrics md]).
  destruct (dict_items td) as [items|e].
  2:{ exists head. intros lg. log_norm. reflexivity. }
  destruct (threshold_loop_run md items) as [em Hem].
  destruct (decision md items) as [o|e] eqn:Ed.
  - exists (head ++ em ++ [LogDecision o]). intros lg.
    rewrite Hem. log_norm. reflexivity.
  - exists (head ++ em). intros lg.
    rewrite Hem. log_norm. reflexivity.
Qed.

Lemma eval_metrics_result json_loads metrics thresholds lg :
  result (eval_metrics json_loads metrics thresholds) lg
  = eval_decision json_loads metrics thresholds.
Proof.
  destruct (eval_metrics_run json_loads metrics thresholds) as [em H].
  unfold result. now rewrite H.
Qed.







(** C9, as the specification states it, fails: a call is not pure.  On a
    logger at the level [WARNING] (30) with an empty log, a call leaves the
    level at [INFO] (20) and records in the log. *)
Lemma eval_metrics_changes_logger :
  ~ Spec.pure_evaluation
      (loads_table [(thresholds_text, JDict [("mae", JInt 10)]);
                    (metrics_text, JDict [("mae", JList [JInt 50; JInt 8])])])
      metrics_text thresholds_text.
Proof.
  intros [Hpure _]. specialize (Hpure fresh_logger). discriminate Hpure.
Qed.

(** C9 (amended): a call of the component is determined by the two
    documents alone, but it is not pure.  What it returns or raises is a
    function of the documents; its effect is to set the level of the root
    logger to [INFO] and to append log records, and these records are a
    function of the documents too, whatever the level of the logger was
    before.  So a second call on the same documents returns the same
    outcome and appends the same records again. *)
Theorem eval_metrics_effect json_loads metrics thresholds :
  exists out emitted,
    (forall lg,
        eval_metrics json_loads metrics thresholds lg
        = (mkLogger INFO (records lg ++ emitted), out)) /\
    (forall lg,
        eval_metrics json_loads metrics thresholds
          (log_after (eval_metrics json_loads metrics thresholds) lg)
        = (mkLogger INFO (records lg ++ emitted ++ emitted), out)).
Proof.
  destruct (eval_metrics_run json_loads metrics thresholds) as [em H].
  exists (eval_decision json_loads metrics thresholds), em.
  split; [exact H|].
  intros lg. unfold log_after. rewrite (H lg). cbn [fst].
  rewrite H. cbn [records]. now rewrite app_assoc.
Qed.

(** C10: metrics that the thresholds do not name have no influence: two
    reports that agree on every metric the thresholds name lead to the same
    run of [regression_threshold_check], that is the same decision or the
    same exception (and the same log records), however they differ on
    other metrics. *)
Theorem unnamed_metrics_do_not_matter td mi1 mi2 lg :
  (forall k, In k (spec_names td) -> getitem_str mi1 k = getitem_str mi2 k) ->
  regression_threshold_check td mi1 lg = regression_threshold_check td mi2 lg.
Proof.
  destruct td as [| | | | | |items]; try reflexivity.
  unfold regression_threshold_check, bind, lift; cbn [dict_items spec_names].
  revert lg. induction items as [|[k v] rest IH]; intros lg H; [reflexivity|].
  assert (Hrest : forall lg', threshold_loop mi1 rest lg'
                              = threshold_loop mi2 rest lg').
  { intros lg'. apply IH. intros k' Hin. apply H. now right. }
  cbn [threshold_loop]. unfold bind, logging_info, lift.
  destruct (str_in k checked_metrics); [|apply Hrest].
  rewrite (H k (or_introl eq_refl)).
  destruct (getitem_str mi2 k) as [mk|e]; [|reflexivity].
  destruct (getitem_int mk (-1)) as [final|e]; [|reflexivity].
  destruct (py_gt final v) as [[|]|e]; [reflexivity | apply Hrest | reflexivity].
Qed.

Lemma unnamed_metrics_do_not_matter_witness :
  let td := JDict [("mae", JInt 10)] in
  let mi1 := JDict [("mae", JList [JInt 50; JInt 40]);
                    ("accuracy", JList [half])] in
  let mi2 := JDict [("loss", JList []);
                    ("mae", JList [JInt 50; JInt 40])] in
  (forall k, In k (spec_names td) -> getitem_str mi1 k = getitem_str mi2 k) /\
  regression_threshold_check td mi1 fresh_logger
    = regression_threshold_check td mi2 fresh_logger.
Proof.
  intros td mi1 mi2.
  assert (H : forall k, In k (spec_names td) ->
                        getitem_str mi1 k = getitem_str mi2 k).
  { intros k [<- | []]. reflexivity. }
  split; [exact H|].
  exact (unnamed_metrics_do_not_matter td mi1 mi2 fresh_logger H).
Defined.

(** * Further properties of the gate *)

Lemma decision_all_pass mi items :
  Forall (passes mi) items -> decision mi items = Returned DEPLOY.
Proof.
  intros H. rewrite <- (app_nil_r items). now rewrite decision_past.
Qed.

Lemma unchecked_passes mi entry : ~ is_checked (fst entry) -> passes mi entry.
Proof. intros Hn Hk. now destruct Hn. Qed.

(** X1: thresholds that name neither [root_mean_squared_error] nor [mae]
    (the empty thresholds among them) give ['deploy'] for every metrics
    value whatsoever, be it a report, a malformed report or not a
    dictionary at all: nothing is looked up and nothing can raise. *)
Theorem no_compared_name_always_deploys items mi lg :
  (forall k v, In (k, v) items -> ~ is_checked k) ->
  result (regression_threshold_check (JDict items) mi) lg = Returned DEPLOY.
Proof.
  intros H. rewrite check_result. apply decision_all_pass.
  apply Forall_forall. intros [k v] Hin. apply unchecked_passes. exact (H k v Hin).
Qed.

Lemma no_compared_name_always_deploys_witness :
  let items := [("rmse", JInt 10); ("accuracy", JStr "high")] in
  (forall k v, In (k, v) items -> ~ is_checked k) /\
  result (regression_threshold_check (JDict items) (JList [])) fresh_logger
    = Returned DEPLOY.
Proof.
  intros items.
  assert (H : forall k v, In (k, v) items -> ~ is_checked k).
  { intros k v [E | [E | []]]; injection E as <- <-;
      intros [H | H]; discriminate H. }
  split; [exact H|].
  exact (no_compared_name_always_deploys items (JList []) fresh_logger H).
Defined.

Lemma float_eq_not_gt x y : float_eq x y = true -> float_gt x y = false.
Proof.
  destruct x as [|nx|m1 e1], y as [|ny|m2 e2]; cbn; try easy.
  - now destruct nx, ny.
  - now destruct (finite_compare m1 e1 m2 e2).
Qed.

(** X2: the comparison is strict: a final observation that equals the
    threshold as a number (an [int] against the same [float] included)
    does not trigger ['False']; the entry is passed and the decision is
    that of the remaining entries. *)
Theorem threshold_is_inclusive mi k v rest final x y lg :
  is_checked k ->
  final_value mi k = Returned final ->
  as_number final = Some x -> as_number v = Some y ->
  float_eq x y = true ->
  result (regression_threshold_check (JDict ((k, v) :: rest)) mi) lg
    = result (regression_threshold_check (JDict rest) mi) lg.
Proof.
  intros Hk Hf Hx Hy Heq. rewrite !check_result. cbn [decision].
  apply is_checked_iff in Hk. unfold entry_check. rewrite Hk, Hf.
  now rewrite (py_gt_numbers _ _ _ _ Hx Hy), (float_eq_not_gt _ _ Heq).
Qed.

Lemma threshold_is_inclusive_witness :
  let mi := JDict [("root_mean_squared_error", JList [JInt 3000; JInt 2000])] in
  let v := JFloat (Finite 125 4) in
  is_checked "root_mean_squared_error" /\
  final_value mi "root_mean_squared_error" = Returned (JInt 2000) /\
  as_number (JInt 2000) = Some (Finite 2000 0) /\
  as_number v = Some (Finite 125 4) /\
  float_eq (Finite 2000 0) (Finite 125 4) = true /\
  result (regression_threshold_check
            (JDict [("root_mean_squared_error", v)]) mi) fresh_logger
    = result (regression_threshold_check (JDict []) mi) fresh_logger.
Proof.
  intros mi v.
  assert (Hk : is_checked "root_mean_squared_error") by (left; reflexivity).
  split; [exact Hk | split; [reflexivity | split; [reflexivity |
    split; [reflexivity | split; [reflexivity |]]]]].
  exact (threshold_is_inclusive mi "root_mean_squared_error" v []
           (JInt 2000) (Finite 2000 0) (Finite 125 4) fresh_logger
           Hk eq_refl eq_refl eq_refl eq_refl).
Defined.

Lemma float_gt_nan x y : x = NaN \/ y = NaN -> float_gt x y = false.
Proof. intros [-> | ->]; [reflexivity | now destruct x]. Qed.

(** X3: [NaN] never triggers ['False']: when the final observation of a
    compared metric is [NaN] (a diverged training run), or the threshold
    is, the entry is passed and the decision is that of the remaining
    entries. *)
Theorem nan_never_holds mi k v rest final x y lg :
  is_checked k ->
  final_value mi k = Returned final ->
  as_number final = Some x -> as_number v = Some y ->
  x = NaN \/ y = NaN ->
  result (regression_threshold_check (JDict ((k, v) :: rest)) mi) lg
    = result (regression_threshold_check (JDict rest) mi) lg.
Proof.
  intros Hk Hf Hx Hy Hnan. rewrite !check_result. cbn [decision].
  apply is_checked_iff in Hk. unfold entry_check. rewrite Hk, Hf.
  now rewrite (py_gt_numbers _ _ _ _ Hx Hy), (float_gt_nan _ _ Hnan).
Qed.

Lemma nan_never_holds_witness :
  let mi := JDict [("mae", JList [JInt 50; JFloat NaN])] in
  is_checked "mae" /\
  final_value mi "mae" = Returned (JFloat NaN) /\
  as_number (JFloat NaN) = Some NaN /\
  as_number (JInt 10) = Some (Finite 10 0) /\
  (NaN = NaN \/ Finite 10 0 = NaN) /\
  result (regression_threshold_check (JDict [("mae", JInt 10)]) mi)
         fresh_logger
    = result (regression_threshold_check (JDict []) mi) fresh_logger.
Proof.
  intros mi.
  assert (Hk : is_checked "mae") by (right; reflexivity).
  split; [exact Hk | split; [reflexivity | split; [reflexivity |
    split; [reflexivity | split; [left; reflexivity |]]]]].
  exact (nan_never_holds mi "mae" (JInt 10) [] (JFloat NaN) NaN
           (Finite 10 0) fresh_logger Hk eq_refl eq_refl eq_refl
           (or_introl eq_refl)).
Defined.

(** ** Raising thresholds *)

(** Two finite numbers can be compared at any common exponent below
    theirs. *)
Lemma finite_compare_scaled E m1 e1 m2 e2 :
  E <= e1 -> E <= e2 ->
  finite_compare m1 e1 m2 e2 = (m1 * 2 ^ (e1 - E) ?= m2 * 2 ^ (e2 - E)).
Proof.
  intros H1 H2. unfold finite_compare.
  set (e := Z.min e1 e2).
  assert (He1 : e <= e1) by (subst e; lia).
  assert (He2 : e <= e2) by (subst e; lia).
  assert (HE : E <= e) by (subst e; lia).
  replace (e1 - E) with ((e1 - e) + (e - E)) by lia.
  replace (e2 - E) with ((e2 - e) + (e - E)) by lia.
  rewrite !Z.pow_add_r by lia. rewrite !Z.mul_assoc.
  apply Zmult_compare_compat_r.
  assert (0 < 2 ^ (e - E)) by (apply Z.pow_pos_nonneg; lia). lia.
Qed.

Lemma finite_compare_trans m1 e1 m2 e2 m3 e3 :
  finite_compare m1 e1 m2 e2 <> Gt ->
  finite_compare m2 e2 m3 e3 <> Gt ->
  finite_compare m1 e1 m3 e3 <> Gt.
Proof.
  set (E := Z.min e1 (Z.min e2 e3)).
  rewrite (finite_compare_scaled E m1 e1 m2 e2) by (subst E; lia).
  rewrite (finite_compare_scaled E m2 e2 m3 e3) by (subst E; lia).
  rewrite (finite_compare_scaled E m1 e1 m3 e3) by (subst E; lia).
  rewrite !Z.compare_gt_iff. lia.
Qed.

Lemma float_gt_finite m1 e1 m2 e2 :
  float_gt (Finite m1 e1) (Finite m2 e2) = false <->
  finite_compare m1 e1 m2 e2 <> Gt.
Proof.
  cbn. destruct (finite_compare m1 e1 m2 e2); split; congruence.
Qed.

(** A number that is not above a threshold is not above a larger one. *)
Lemma float_gt_mono x y y' :
  float_gt x y = false -> num_le y y' -> float_gt x y' = false.
Proof.
  intros Hxy (Hyy' & Hy & Hy').
  destruct x as [|nx|m1 e1]; [reflexivity| |];
    destruct y as [|ny|m2 e2]; try (now destruct Hy);
    destruct y' as [|ny'|m3 e3]; try (now destruct Hy');
    try (repeat match goal with b : bool |- _ => destruct b end;
         cbn in *; congruence).
  apply float_gt_finite.
  apply (finite_compare_trans m1 e1 m2 e2 m3 e3); now apply float_gt_finite.
Qed.

Lemma py_gt_other_number a b y :
  as_number a = None -> as_number b = Some y -> py_gt a b = Raised TypeError.
Proof.
  destruct a; try discriminate; destruct b; try discriminate;
    cbn [py_gt]; intros _ ?; reflexivity.
Qed.

Lemma passes_threshold_raised mi a b :
  threshold_raised a b -> passes mi a -> passes mi b.
Proof.
  intros [-> | (Hk & y & y' & Hy & Hy' & Hle)]; [easy|].
  intros Hp Hkb. rewrite <- Hk in *.
  destruct (Hp Hkb) as (final & Hf & Hgt).
  exists final. split; [assumption|].
  destruct (as_number final) as [x|] eqn:Hx.
  - rewrite (py_gt_numbers _ _ _ _ Hx Hy) in Hgt. injection Hgt as Hgt.
    rewrite (py_gt_numbers _ _ _ _ Hx Hy').
    now rewrite (float_gt_mono _ _ _ Hgt Hle).
  - rewrite (py_gt_other_number _ _ _ Hx Hy) in Hgt. discriminate Hgt.
Qed.

(** X4: raising thresholds never stops a deployment: when the thresholds
    give ['deploy'] for a report, so do thresholds in which some numeric
    values have been replaced by larger numbers. *)
Theorem raising_thresholds_keeps_deploy mi items items' lg :
  Forall2 threshold_raised items items' ->
  result (regression_threshold_check (JDict items) mi) lg = Returned DEPLOY ->
  result (regression_threshold_check (JDict items') mi) lg = Returned DEPLOY.
Proof.
  rewrite !check_result. intros Hraised Hd.
  apply decision_deploy in Hd. apply decision_all_pass.
  induction Hraised as [|a b items items' Hab _ IH]; [constructor|].
  inversion_clear Hd as [|? ? Ha Hrest].
  constructor; [exact (passes_threshold_raised mi a b Hab Ha) | exact (IH Hrest)].
Qed.

Lemma raising_thresholds_keeps_deploy_witness :
  let mi := JDict [("mae", JList [JInt 50; JInt 40])] in
  let items := [("mae", JInt 40); ("accuracy", JStr "high")] in
  let items' := [("mae", JFloat (Finite 81 (-1))); ("accuracy", JStr "high")] in
  Forall2 threshold_raised items items' /\
  result (regression_threshold_check (JDict items) mi) fresh_logger
    = Returned DEPLOY /\
  result (regression_threshold_check (JDict items') mi) fresh_logger
    = Returned DEPLOY.
Proof.
  intros mi items items'.
  assert (H : Forall2 threshold_raised items items').
  { constructor; [|constructor; [now left | constructor]].
    right. split; [reflexivity|].
    exists (Finite 40 0), (Finite 81 (-1)).
    split; [reflexivity | split; [reflexivity|]].
    split; [reflexivity | split; discriminate]. }
  split; [exact H | split; [reflexivity|]].
  exact (raising_thresholds_keeps_deploy mi items items' fresh_logger H eq_refl).
Defined.

(** ** The order of the thresholds *)

(** X5: the order of the thresholds matters only through exceptions: if
    the component returns ['deploy'] for some order of the entries it
    returns ['deploy'] for every order, and two orders on which it returns
    at all return the same token. *)
Theorem order_of_thresholds mi items items' lg :
  Permutation.Permutation items items' ->
  (result (regression_threshold_check (JDict items) mi) lg = Returned DEPLOY ->
   result (regression_threshold_check (JDict items') mi) lg = Returned DEPLOY) /\
  (forall o o',
      result (regression_threshold_check (JDict items) mi) lg = Returned o ->
      result (regression_threshold_check (JDict items') mi) lg = Returned o' ->
      o = o').
Proof.
  intros Hperm. rewrite !check_result.
  assert (Hdeploy : forall l l', Permutation.Permutation l l' ->
            decision mi l = Returned DEPLOY -> decision mi l' = Returned DEPLOY).
  { intros l l' Hp Hd. apply decision_all_pass.
    apply (Permutation.Permutation_Forall Hp). now apply decision_deploy. }
  split; [now apply Hdeploy|].
  intros o o' Ho Ho'.
  destruct (decision_tokens _ _ _ Ho) as [-> | ->];
    destruct (decision_tokens _ _ _ Ho') as [-> | ->]; try reflexivity.
  - rewrite (Hdeploy _ _ Hperm Ho) in Ho'. discriminate Ho'.
  - rewrite (Hdeploy _ _ (Permutation.Permutation_sym Hperm) Ho') in Ho.
    discriminate Ho.
Qed.

Lemma order_of_thresholds_witness :
  let mi := JDict [("mae", JList [JInt 50; JInt 40]);
                   ("root_mean_squared_error", JList [JInt 1800])] in
  let items := [("mae", JInt 100); ("root_mean_squared_error", JInt 2000)] in
  let items' := [("root_mean_squared_error", JInt 2000); ("mae", JInt 100)] in
  Permutation.Permutation items items' /\
  result (regression_threshold_check (JDict items) mi) fresh_logger
    = Returned DEPLOY /\
  result (regression_threshold_check (JDict items') mi) fresh_logger
    = Returned DEPLOY.
Proof.
  intros mi items items'.
  assert (H : Permutation.Permutation items items')
    by apply Permutation.perm_swap.
  split; [exact H | split; [reflexivity|]].
  exact (proj1 (order_of_thresholds mi items items' fresh_logger H) eq_refl).
Defined.

(** ** What the loop logs *)

Lemma threshold_loop_past_log mi pre items :
  Forall (passes mi) pre ->
  forall lg,
    threshold_loop mi (pre ++ items) lg
    = threshold_loop mi items (emit_all (map entry_record pre) lg).
Proof.
  induction 1 as [|[k v] pre Hp _ IH]; intros lg.
  - cbn [app map]. now rewrite emit_all_nil.
  - cbn [app map threshold_loop]. unfold bind, logging_info, lift.
    assert (Hlog : emit_all (entry_record (k, v) :: map entry_record pre) lg
                   = emit_all (map entry_record pre) (emit (LogEntry k v) lg)).
    { rewrite emit_as_emit_all, emit_all_app. reflexivity. }
    rewrite Hlog.
    destruct (str_in k checked_metrics) eqn:Ek; [|apply IH].
    apply is_checked_iff in Ek. destruct (Hp Ek) as (final & Hf & Hgt).
    cbn [fst snd] in Hf, Hgt. unfold final_value in Hf.
    destruct (getitem_str mi k) as [mk|e]; [|discriminate Hf].
    rewrite Hf, Hgt. apply IH.
Qed.

(** X6: the record that announces ['False'] carries the first observation
    of the metric, [metrics_info[k][0]], not the last one that was
    compared: the run that stops at an entry logs the entries up to it and
    then the first observation with the threshold. *)
Theorem hold_logs_first_observation
  report pre k v post first more final lg :
  Forall (passes (JDict report)) pre -> is_checked k ->
  dict_get report k = Some (JList (first :: more)) ->
  seq_index (first :: more) (-1) = Some final ->
  py_gt final v = Returned true ->
  regression_threshold_check (JDict (pre ++ (k, v) :: post)) (JDict report) lg
  = (emit_all (map entry_record pre ++ [LogEntry k v; LogReturningFalse first v])
              lg,
     Returned HOLD).
Proof.
  intros Hpre Hk Hget Hlast Hgt.
  unfold regression_threshold_check, bind, lift; cbn [dict_items].
  rewrite threshold_loop_past_log by assumption.
  apply is_checked_iff in Hk.
  cbn [threshold_loop]. unfold bind, logging_info, lift, ret.
  rewrite Hk. cbn [getitem_str]. rewrite Hget. cbn [getitem_int].
  rewrite Hlast, Hgt.
  assert (H0 : seq_index (first :: more) 0 = Some first).
  { unfold seq_index. cbn [List.length].
    destruct (Z.ltb_spec 0 (Z.of_nat (S (List.length more)))); [reflexivity|lia]. }
  rewrite H0. now rewrite !emit_as_emit_all, !emit_all_app.
Qed.

Lemma hold_logs_first_observation_witness :
  let report := [("mae", JList [JInt 5; JInt 50; JInt 40])] in
  let lg := mkLogger INFO [] in
  Forall (passes (JDict report)) [] /\
  is_checked "mae" /\
  dict_get report "mae" = Some (JList [JInt 5; JInt 50; JInt 40]) /\
  seq_index [JInt 5; JInt 50; JInt 40] (-1) = Some (JInt 40) /\
  py_gt (JInt 40) (JInt 10) = Returned true /\
  regression_threshold_check (JDict [("mae", JInt 10)]) (JDict report) lg
  = (mkLogger INFO [LogEntry "mae" (JInt 10);
                    LogReturningFalse (JInt 5) (JInt 10)],
     Returned HOLD).
Proof.
  intros report lg.
  assert (Hk : is_checked "mae") by (right; reflexivity).
  split; [constructor | split; [exact Hk | split; [reflexivity |
    split; [reflexivity | split; [reflexivity |]]]]].
  exact (hold_logs_first_observation report [] "mae" (JInt 10) []
           (JInt 5) [JInt 50; JInt 40] (JInt 40) lg
           (Forall_nil _) Hk eq_refl eq_refl eq_refl).
Defined.

(** ** Documents of the wrong shape *)

(** X7: thresholds that parse to anything but a JSON object (a list, a
    number, a string, ...) make the component raise [AttributeError] once
    the metrics document has parsed; no decision is returned. *)
Theorem thresholds_not_a_dict_raises json_loads metrics thresholds td mi lg :
  json_loads thresholds = Returned td ->
  (forall d, td <> JDict d) ->
  json_loads metrics = Returned mi ->
  result (eval_metrics json_loads metrics thresholds) lg = Raised AttributeError.
Proof.
  intros Ht Hnd Hm. rewrite eval_metrics_result. unfold eval_decision.
  rewrite Ht, Hm. destruct td; try reflexivity. now destruct (Hnd d).
Qed.

Lemma thresholds_not_a_dict_raises_witness :
  let td := JList [JInt 2000] in
  let mi := JDict [("mae", JList [JInt 50; JInt 8])] in
  let json_loads := loads_table [(thresholds_text, td); (metrics_text, mi)] in
  json_loads thresholds_text = Returned td /\
  (forall d, td <> JDict d) /\
  json_loads metrics_text = Returned mi /\
  result (eval_metrics json_loads metrics_text thresholds_text) fresh_logger
    = Raised AttributeError.
Proof.
  intros td mi json_loads.
  assert (Hnd : forall d, td <> JDict d) by (intros d; discriminate).
  split; [reflexivity | split; [exact Hnd | split; [reflexivity |]]].
  exact (thresholds_not_a_dict_raises json_loads metrics_text thresholds_text
           td mi fresh_logger eq_refl Hnd eq_refl).
Defined.

(** X8: a metrics value that is not a dictionary makes the component raise
    [TypeError] at the first entry named [root_mean_squared_error] or
    [mae], whatever the entries behind it are. *)
Theorem report_not_a_dict_raises mi pre k v post lg :
  (forall d, mi <> JDict d) ->
  Forall (fun entry => ~ is_checked (fst entry)) pre ->
  is_checked k ->
  result (regression_threshold_check (JDict (pre ++ (k, v) :: post)) mi) lg
    = Raised TypeError.
Proof.
  intros Hnd Hpre Hk.
  rewrite check_result, decision_at.
  - apply is_checked_iff in Hk. unfold entry_check, final_value. rewrite Hk.
    destruct mi; try reflexivity. now destruct (Hnd d).
  - apply (Forall_impl _ (unchecked_passes mi) Hpre).
Qed.

Lemma report_not_a_dict_raises_witness :
  let mi := JList [JInt 50; JInt 40] in
  (forall d, mi <> JDict d) /\
  Forall (fun entry : string * json => ~ is_checked (fst entry))
         [("accuracy", half)] /\
  is_checked "mae" /\
  result (regression_threshold_check
            (JDict ([("accuracy", half)] ++ [("mae", JInt 10)])) mi)
         fresh_logger
    = Raised TypeError.
Proof.
  intros mi.
  assert (Hnd : forall d, mi <> JDict d) by (intros d; discriminate).
  assert (Hpre : Forall (fun entry : string * json => ~ is_checked (fst entry))
                        [("accuracy", half)]).
  { constructor; [|constructor]. intros [H | H]; discriminate H. }
  assert (Hk : is_checked "mae") by (right; reflexivity).
  split; [exact Hnd | split; [exact Hpre | split; [exact Hk |]]].
  exact (report_not_a_dict_raises mi [("accuracy", half)] "mae" (JInt 10) []
           fresh_logger Hnd Hpre Hk).
Defined.

(** ** The conditional serving of the pipelines *)

Lemma serve_condition_iff step :
  serve_condition step = true <-> step = Returned DEPLOY.
Proof.
  destruct step as [[token]|e]; cbn; [|easy].
  rewrite String.eqb_eq. split; [now intros -> | now intros [= ->]].
Qed.

(** X9: in the pipelines the serving step runs exactly when both documents
    parse, the thresholds are a JSON object, and every entry of them is
    one the loop gets past: a name other than [root_mean_squared_error]
    and [mae], or one of the two whose final observation is not above the
    threshold.  An exception in the metrics step never leads to serving. *)
Theorem serve_iff_all_pass json_loads metrics thresholds lg :
  serve_condition (result (eval_metrics json_loads metrics thresholds) lg)
    = true <->
  exists items mi,
    json_loads thresholds = Returned (JDict items) /\
    json_loads metrics = Returned mi /\
    Forall (passes mi) items.
Proof.
  rewrite serve_condition_iff, eval_metrics_result. unfold eval_decision.
  split.
  - destruct (json_loads thresholds) as [td|e]; [|easy].
    destruct (json_loads metrics) as [mi|e]; [|easy].
    destruct td; try easy. cbn [dict_items]. intros H.
    exists d, mi. repeat split. now apply decision_deploy.
  - intros (items & mi & -> & -> & Hall). cbn [dict_items].
    now apply decision_all_pass.
Qed.

(** X10: with the default [thresholds] of the pipelines,
    [{"root_mean_squared_error": 2000}], and a report whose
    [root_mean_squared_error] observations end in a number, the serving
    step runs exactly when that last number is not above 2000. *)
Theorem default_thresholds_gate
  json_loads metrics report earlier final x lg :
  json_loads default_thresholds
    = Returned (JDict [("root_mean_squared_error", JInt 2000)]) ->
  json_loads metrics = Returned (JDict report) ->
  dict_get report "root_mean_squared_error" = Some (JList (earlier ++ [final])) ->
  as_number final = Some x ->
  serve_condition
    (result (eval_metrics json_loads metrics default_thresholds) lg)
  = negb (float_gt x (Finite 2000 0)).
Proof.
  intros Ht Hm Hget Hx. rewrite eval_metrics_result. unfold eval_decision.
  rewrite Ht, Hm. cbn [dict_items decision]. unfold entry_check.
  change (str_in "root_mean_squared_error" checked_metrics) with true.
  cbv iota. rewrite (final_value_list _ _ _ _ Hget).
  rewrite (py_gt_numbers final (JInt 2000) x (Finite 2000 0) Hx eq_refl).
  now destruct (float_gt x (Finite 2000 0)).
Qed.

Lemma default_thresholds_gate_witness :
  let report := [("root_mean_squared_error",
                  JList ([JInt 3000; JInt 2500] ++ [JInt 1800]))] in
  let json_loads :=
    loads_table [(default_thresholds,
                  JDict [("root_mean_squared_error", JInt 2000)]);
                 (metrics_text, JDict report)] in
  json_loads default_thresholds
    = Returned (JDict [("root_mean_squared_error", JInt 2000)]) /\
  json_loads metrics_text = Returned (JDict report) /\
  dict_get report "root_mean_squared_error"
    = Some (JList ([JInt 3000; JInt 2500] ++ [JInt 1800])) /\
  as_number (JInt 1800) = Some (Finite 1800 0) /\
  serve_condition
    (result (eval_metrics json_loads metrics_text default_thresholds)
            fresh_logger)
  = negb (float_gt (Finite 1800 0) (Finite 2000 0)).
Proof.
  intros report json_loads.
  split; [reflexivity | split; [reflexivity | split; [reflexivity |
    split; [reflexivity |]]]].
  exact (default_thresholds_gate json_loads metrics_text report
           [JInt 3000; JInt 2500] (JInt 1800) (Finite 1800 0) fresh_logger
           eq_refl eq_refl eq_refl eq_refl).
Defined.

(** * The notebook's functions *)

(** ** [split] *)

Lemma split_last sep s :
  exists pieces last_piece,
    AutoML.split sep s = pieces ++ [last_piece] /\
    AutoML.free_of sep last_piece = true /\
    AutoML.glue sep pieces last_piece = s.
Proof.
  induction s as [|c s (pieces & lst & Hsplit & Hfree & Hglue)].
  - now exists [], EmptyString.
  - cbn [AutoML.split]. destruct (Ascii.eqb c sep) eqn:Ec.
    + apply Ascii.eqb_eq in Ec. subst c.
      exists (EmptyString :: pieces), lst. rewrite Hsplit.
      repeat split; [assumption|]. cbn. now rewrite Hglue.
    + rewrite Hsplit. destruct pieces as [|p ps]; cbn [app].
      * exists [], (String c lst). cbn in *. rewrite Ec, Hfree.
        repeat split. now rewrite Hglue.
      * exists (String c p :: ps), lst.
        repeat split; [assumption|]. cbn in *. now rewrite Hglue.
Qed.

Lemma split_pieces_free sep s :
  Forall (fun piece => AutoML.free_of sep piece = true) (AutoML.split sep s).
Proof.
  induction s as [|c s IH]; cbn [AutoML.split].
  - now constructor.
  - destruct (Ascii.eqb c sep) eqn:Ec; [now constructor|].
    destruct (AutoML.split sep s) as [|p ps].
    + constructor; [|constructor]. cbn. now rewrite Ec.
    + inversion_clear IH as [|? ? Hp Hps].
      constructor; [|assumption]. cbn. now rewrite Ec, Hp.
Qed.

Lemma split_not_nil sep s : AutoML.split sep s <> [].
Proof.
  destruct (split_last sep s) as (pieces & lst & -> & _).
  now destruct pieces.
Qed.

Lemma concat_cons sep x l :
  l <> [] ->
  String.concat sep (x :: l)
  = String.append x (String.append sep (String.concat sep l)).
Proof. destruct l; [now intros H | reflexivity]. Qed.

Lemma join_split sep s : AutoML.join sep (AutoML.split sep s) = s.
Proof.
  unfold AutoML.join. induction s as [|c s IH]; [reflexivity|].
  cbn [AutoML.split]. pose proof (split_not_nil sep s) as Hne.
  destruct (Ascii.eqb c sep) eqn:Ec.
  - apply Ascii.eqb_eq in Ec. subst c.
    rewrite concat_cons by assumption. rewrite IH. reflexivity.
  - destruct (AutoML.split sep s) as [|p ps]; [now destruct Hne|].
    destruct ps as [|q qs].
    + cbn in *. now rewrite IH.
    + rewrite concat_cons in * by discriminate.
      rewrite <- IH. reflexivity.
Qed.

Lemma glue_prefix sep pieces lst :
  exists prefix,
    AutoML.glue sep pieces lst = String.append prefix lst /\
    (prefix = EmptyString \/
     exists p, prefix = String.append p (String sep EmptyString)).
Proof.
  induction pieces as [|piece pieces (prefix & Hglue & Hprefix)].
  - exists EmptyString. split; [reflexivity | now left].
  - cbn [AutoML.glue]. rewrite Hglue.
    assert (Hassoc : forall a b c : string,
               String.append a (String.append b c)
               = String.append (String.append a b) c).
    { intros a b c. induction a as [|x a IHa]; cbn; [reflexivity|].
      now rewrite IHa. }
    exists (String.append piece (String sep prefix)). split.
    + change (String sep (String.append prefix lst))
        with (String.append (String sep prefix) lst).
      apply Hassoc.
    + right. destruct Hprefix as [-> | (p & ->)].
      * now exists piece.
      * exists (String.append piece (String sep p)).
        change (String sep (String.append p (String sep EmptyString)))
          with (String.append (String sep p) (String sep EmptyString)).
        apply Hassoc.
Qed.

Lemma resource_id_segments name :
  exists id prefix,
    AutoML.resource_id name = AutoML.Done id /\
    AutoML.free_of "/" id = true /\
    name = String.append prefix id /\
    (prefix = EmptyString \/
     exists p, prefix = String.append p (String "/" EmptyString)).
Proof.
  destruct (split_last "/" name) as (pieces & id & Hsplit & Hfree & Hglue).
  destruct (glue_prefix "/" pieces id) as (prefix & Hprefix & Hends).
  exists id, prefix. unfold AutoML.resource_id.
  rewrite Hsplit, seq_index_last. repeat split; try assumption.
  now rewrite <- Hglue.
Qed.

Lemma resource_id_done name : exists id, AutoML.resource_id name = AutoML.Done id.
Proof.
  destruct (resource_id_segments name) as (id & _ & H & _). now exists id.
Qed.

(** X11: the id that [create_dataset], [list_column_specs] and
    [get_model] print, [name.split("/")[-1]], is always defined (no
    [IndexError], even for an empty name): it contains no ["/"] and is what
    follows the last ["/"] of the name, or the whole name if there is
    none. *)
Theorem resource_id_is_last_segment name :
  exists id prefix,
    AutoML.resource_id name = AutoML.Done id /\
    AutoML.free_of "/" id = true /\
    name = String.append prefix id /\
    (prefix = EmptyString \/
     exists p, prefix = String.append p (String "/" EmptyString)).
Proof. exact (resource_id_segments name). Qed.

(** ** [import_data] *)

(** X12: whatever the client answers, [import_data] makes its request
    first, and the request denotes the path it was given: a path that
    starts with ["bq"] is sent whole as the BigQuery URI (commas in it are
    not split), and any other path is sent as a non-empty list of Cloud
    Storage URIs, none of which contains a comma and which joined by commas
    give the path back. *)
Theorem import_data_request client dataset_display_name path :
  exists source rest,
    fst (AutoML.import_data client dataset_display_name path)
    = AutoML.Called (AutoML.CallImportData dataset_display_name source) :: rest /\
    match source with
    | AutoML.BigQueryInputUri uri =>
        uri = path /\ String.prefix "bq" path = true
    | AutoML.GcsInputUris uris =>
        String.prefix "bq" path = false /\
        uris <> [] /\
        Forall (fun uri => AutoML.free_of "," uri = true) uris /\
        AutoML.join "," uris = path
    end.
Proof.
  unfold AutoML.import_data.
  destruct (String.prefix "bq" path) eqn:Eprefix.
  - exists (AutoML.BigQueryInputUri path).
    destruct (client dataset_display_name (AutoML.BigQueryInputUri path))
      as [[imported|e]|e]; eexists; (split; [reflexivity | now split]).
  - exists (AutoML.GcsInputUris (AutoML.split "," path)).
    assert (H : AutoML.split "," path <> [] /\
                Forall (fun uri => AutoML.free_of "," uri = true)
                       (AutoML.split "," path) /\
                AutoML.join "," (AutoML.split "," path) = path).
    { split; [apply split_not_nil |
        split; [apply split_pieces_free | apply join_split]]. }
    destruct (client dataset_display_name
                (AutoML.GcsInputUris (AutoML.split "," path)))
      as [[imported|e]|e]; eexists; (split; [reflexivity | now split]).
Qed.

(** ** [list_column_specs] *)

Lemma column_specs_loop_run response : forall result,
  exists events,
    AutoML.column_specs_loop response result
    = (events, AutoML.Done (result ++ response)) /\
    List.length events = (4 * List.length response)%nat.
Proof.
  induction response as [|spec response IH]; intros result.
  - exists []. split; [now rewrite app_nil_r | reflexivity].
  - cbn [AutoML.column_specs_loop]. unfold AutoML.column_spec_lines.
    destruct (resource_id_done (AutoML.spec_name spec)) as [id ->].
    destruct (IH (result ++ [spec])) as (events & -> & Hlen).
    eexists. split.
    + rewrite <- app_assoc. reflexivity.
    + cbn [List.length app]. rewrite Hlen. lia.
Qed.

(** X13: when the client answers, [list_column_specs] returns exactly the
    column specs of the answer, in the order of the answer, and prints the
    heading and four lines for each of them; it never raises itself. *)
Theorem list_column_specs_returns_all client dataset_display_name filter_
  response :
  client dataset_display_name filter_ = AutoML.Done response ->
  exists events,
    AutoML.list_column_specs client dataset_display_name filter_
    = (AutoML.Called (AutoML.CallListColumnSpecs dataset_display_name filter_)
         :: AutoML.Printed (AutoML.PText "List of column specs:") :: events,
       AutoML.Done response) /\
    List.length events = (4 * List.length response)%nat.
Proof.
  intros Hreply. unfold AutoML.list_column_specs. rewrite Hreply.
  destruct (column_specs_loop_run response []) as (events & -> & Hlen).
  now exists events.
Qed.

Lemma list_column_specs_returns_all_witness :
  let response :=
    [AutoML.mkColumnSpec "projects/p/columnSpecs/12" "duration" "FLOAT64";
     AutoML.mkColumnSpec "columnSpecs/7" "bike_id" "CATEGORY"] in
  let client := fun (_ : string) (_ : option string) => AutoML.Done response in
  client "bikes" None = AutoML.Done response /\
  exists events,
    AutoML.list_column_specs client "bikes" None
    = (AutoML.Called (AutoML.CallListColumnSpecs "bikes" None)
         :: AutoML.Printed (AutoML.PText "List of column specs:") :: events,
       AutoML.Done response) /\
    List.length events = (4 * List.length response)%nat.
Proof.
  intros response client. split; [reflexivity|].
  exact (list_column_specs_returns_all client "bikes" None response eq_refl).
Defined.

(** ** The order of features *)

Lemma finite_compare_antisym m1 e1 m2 e2 :
  finite_compare m1 e1 m2 e2 = CompOpp (finite_compare m2 e2 m1 e1).
Proof.
  unfold finite_compare. rewrite (Z.min_comm e2 e1). apply Z.compare_antisym.
Qed.

Lemma float_gt_asym x y : float_gt x y = true -> float_gt y x = false.
Proof.
  destruct x as [|nx|m1 e1], y as [|ny|m2 e2]; cbn; try easy.
  - now destruct nx, ny.
  - now destruct nx.
  - now destruct ny.
  - rewrite (finite_compare_antisym m2 e2 m1 e1).
    now destruct (finite_compare m1 e1 m2 e2).
Qed.

Lemma float_gt_trans x y z :
  x <> NaN -> y <> NaN -> z <> NaN ->
  float_gt x y = false -> float_gt y z = false -> float_gt x z = false.
Proof.
  intros Hx Hy Hz Hxy Hyz. apply (float_gt_mono x y z Hxy). now split.
Qed.

Lemma float_equal_iff x y :
  x <> NaN -> y <> NaN ->
  AutoML.float_equal x y = true <->
  float_gt x y = false /\ float_gt y x = false.
Proof.
  intros Hx Hy.
  destruct x as [|nx|m1 e1]; [now destruct Hx| |];
    destruct y as [|ny|m2 e2]; try (now destruct Hy); cbn.
  - destruct nx, ny; cbn; intuition congruence.
  - destruct nx; cbn; intuition congruence.
  - destruct ny; cbn; intuition congruence.
  - rewrite (finite_compare_antisym m2 e2 m1 e1).
    destruct (finite_compare m1 e1 m2 e2); cbn; intuition congruence.
Qed.

Lemma string_gt_asym s t : string_gt s t = true -> string_gt t s = false.
Proof.
  unfold string_gt. rewrite (String.compare_antisym t s).
  now destruct (String.compare s t).
Qed.

Lemma string_gt_trans s t u :
  string_gt s t = false -> string_gt t u = false -> string_gt s u = false.
Proof.
  unfold string_gt. intros Hst Htu.
  destruct (String.compare s t) eqn:Est; [| |discriminate Hst].
  - apply String.compare_eq_iff in Est. now subst t.
  - destruct (String.compare t u) eqn:Etu; [| |discriminate Htu].
    + apply String.compare_eq_iff in Etu. subst u. now rewrite Est.
    + apply OrderedTypeEx.String_as_OT.cmp_lt in Est, Etu.
      pose proof (OrderedTypeEx.String_as_OT.lt_trans _ _ _ Est Etu) as Hsu.
      apply OrderedTypeEx.String_as_OT.cmp_lt in Hsu.
      unfold OrderedTypeEx.String_as_OT.cmp in Hsu. now rewrite Hsu.
Qed.

Lemma float_equal_sym x y : AutoML.float_equal x y = AutoML.float_equal y x.
Proof.
  destruct x as [|nx|m1 e1], y as [|ny|m2 e2]; cbn; try reflexivity.
  - now destruct nx, ny.
  - rewrite (finite_compare_antisym m2 e2 m1 e1).
    now destruct (finite_compare m1 e1 m2 e2).
Qed.

Lemma feat_lt_asym a b : AutoML.feat_lt a b = true -> AutoML.feat_ge b a.
Proof.
  unfold AutoML.feat_ge, AutoML.feat_lt.
  rewrite (float_equal_sym (fst b) (fst a)).
  destruct (AutoML.float_equal (fst a) (fst b)).
  - apply string_gt_asym.
  - apply float_gt_asym.
Qed.

Lemma feat_ge_trans a b c :
  fst a <> NaN -> fst b <> NaN -> fst c <> NaN ->
  AutoML.feat_ge a b -> AutoML.feat_ge b c -> AutoML.feat_ge a c.
Proof.
  intros Ha Hb Hc. unfold AutoML.feat_ge, AutoML.feat_lt.
  pose proof (float_equal_iff _ _ Ha Hb) as Eab.
  pose proof (float_equal_iff _ _ Hb Hc) as Ebc.
  pose proof (float_equal_iff _ _ Ha Hc) as Eac.
  pose proof (float_gt_trans _ _ _ Ha Hb Hc) as Tabc.
  pose proof (float_gt_trans _ _ _ Ha Hc Hb) as Tacb.
  pose proof (float_gt_trans _ _ _ Hb Ha Hc) as Tbac.
  pose proof (float_gt_trans _ _ _ Hb Hc Ha) as Tbca.
  pose proof (float_gt_trans _ _ _ Hc Ha Hb) as Tcab.
  pose proof (float_gt_trans _ _ _ Hc Hb Ha) as Tcba.
  destruct (AutoML.float_equal (fst a) (fst b)) eqn:Fab;
    destruct (AutoML.float_equal (fst b) (fst c)) eqn:Fbc;
    destruct (AutoML.float_equal (fst a) (fst c)) eqn:Fac;
    intros Hab Hbc;
    try (apply (string_gt_trans _ _ _ Hbc Hab));
    try (exfalso; intuition congruence);
    intuition congruence.
Qed.

(** ** [sort(reverse=True)] *)

Lemma insert_feat_perm x l : Permutation (x :: l) (AutoML.insert_feat x l).
Proof.
  induction l as [|y l IH]; cbn [AutoML.insert_feat]; [reflexivity|].
  destruct (AutoML.feat_lt x y); [|reflexivity].
  rewrite perm_swap. now constructor.
Qed.

Lemma sort_reverse_perm l : Permutation l (AutoML.sort_reverse l).
Proof.
  induction l as [|x l IH]; cbn [AutoML.sort_reverse]; [constructor|].
  rewrite <- insert_feat_perm. now constructor.
Qed.

Lemma insert_feat_sorted x l :
  fst x <> NaN -> AutoML.nan_free l ->
  StronglySorted AutoML.feat_ge l ->
  StronglySorted AutoML.feat_ge (AutoML.insert_feat x l).
Proof.
  intros Hx. induction l as [|y l IH]; intros Hnan Hsorted;
    cbn [AutoML.insert_feat].
  - repeat constructor.
  - inversion_clear Hnan as [|? ? Hy Hl].
    inversion_clear Hsorted as [|? ? Hsl Hyl].
    destruct (AutoML.feat_lt x y) eqn:Exy.
    + constructor; [now apply IH|].
      apply (Permutation_Forall (insert_feat_perm x l)).
      constructor; [now apply feat_lt_asym | assumption].
    + constructor; [now constructor|].
      constructor; [exact Exy|].
      rewrite Forall_forall in *. intros z Hz.
      apply (feat_ge_trans x y z); auto.
Qed.

Lemma sort_reverse_sorted l :
  AutoML.nan_free l -> StronglySorted AutoML.feat_ge (AutoML.sort_reverse l).
Proof.
  induction l as [|x l IH]; intros Hnan; cbn [AutoML.sort_reverse];
    [constructor|].
  inversion_clear Hnan as [|? ? Hx Hl].
  apply insert_feat_sorted; [assumption | | now apply IH].
  apply (Permutation_Forall (sort_reverse_perm l)). exact Hl.
Qed.

Lemma strongly_sorted_app {A : Type} (R : A -> A -> Prop) l1 l2 :
  StronglySorted R (l1 ++ l2) ->
  forall a b, In a l1 -> In b l2 -> R a b.
Proof.
  induction l1 as [|x l1 IH]; cbn [app]; intros Hs a b Ha Hb; [easy|].
  inversion_clear Hs as [|? ? Hs' Hall].
  destruct Ha as [-> | Ha]; [|now apply IH].
  rewrite Forall_forall in Hall. apply Hall. apply in_or_app. now right.
Qed.

Lemma printed_features_app feats rest :
  AutoML.printed_features
    (map (fun feat => AutoML.Printed (AutoML.PFeature feat)) feats ++ rest)
  = feats ++ AutoML.printed_features rest.
Proof.
  induction feats as [|feat feats IH]; [reflexivity|].
  cbn [map app AutoML.printed_features]. now rewrite IH.
Qed.

(** ** [get_model] *)

Lemma sort_reverse_permutes : AutoML.sort_permutes AutoML.sort_reverse.
Proof. exact sort_reverse_perm. Qed.

Lemma sort_reverse_descends : AutoML.sort_descends AutoML.sort_reverse.
Proof. exact sort_reverse_sorted. Qed.

(** What a run of [get_model] that returns a model has done. *)
Lemma get_model_done sort client model_display_name m feats :
  snd (AutoML.get_model sort client model_display_name)
    = AutoML.Done (Some m, Some feats) ->
  client 1%nat model_display_name = AutoML.Done m /\
  feats = sort (map AutoML.feature (AutoML.tables_model_column_info m)) /\
  AutoML.printed_features
    (fst (AutoML.get_model sort client model_display_name))
    = firstn 10 feats.
Proof.
  unfold AutoML.get_model.
  destruct (client 0%nat model_display_name) as [m0|[[|]|e|]]; try easy.
  destruct (client 1%nat model_display_name) as [m1|e]; [|easy].
  destruct (resource_id_done (AutoML.name m1)) as [id ->].
  cbn [fst snd]. intros [= -> <-].
  split; [reflexivity | split; [reflexivity|]].
  set (feat_list := sort _).
  cbn [AutoML.printed_features app]. rewrite printed_features_app.
  cbn [AutoML.printed_features]. rewrite app_nil_r.
  destruct (Nat.ltb_spec (List.length feat_list) 10); [|reflexivity].
  rewrite !firstn_all2 by lia. reflexivity.
Qed.

(** X14: [get_model] turns the [NotFound] of its first call into the
    result [(None, None)], and otherwise raises nothing of its own: an
    exception that leaves it is the exception of its first call, other
    than [NotFound], or the exception of its second call after a first
    call that succeeded. *)
Theorem get_model_failures sort client model_display_name :
  (client 0%nat model_display_name = AutoML.Failed (AutoML.ApiFailure AutoML.NotFound) ->
   snd (AutoML.get_model sort client model_display_name)
     = AutoML.Done (None, None)) /\
  (forall e,
      snd (AutoML.get_model sort client model_display_name) = AutoML.Failed e ->
      (client 0%nat model_display_name = AutoML.Failed e /\
       e <> AutoML.ApiFailure AutoML.NotFound) \/
      (exists m0,
          client 0%nat model_display_name = AutoML.Done m0 /\
          client 1%nat model_display_name = AutoML.Failed e)).
Proof.
  unfold AutoML.get_model. split.
  - now intros ->.
  - intros e.
    destruct (client 0%nat model_display_name) as [m0|[[|]|e0|]];
      cbn [snd]; try (intros [= <-]; left; split; [reflexivity | discriminate]).
    + destruct (client 1%nat model_display_name) as [m1|e1].
      * destruct (resource_id_done (AutoML.name m1)) as [id ->]. discriminate.
      * intros [= <-]. right. now exists m0.
    + discriminate.
Qed.

Lemma get_model_failures_witness :
  let client := fun (n : nat) (_ : string) =>
    match n with
    | O => AutoML.Failed (AutoML.ApiFailure AutoML.NotFound)
    | S _ => AutoML.Done (AutoML.mkModel "m" "m" AutoML.DEPLOYED [] 0 0)
    end in
  client 0%nat "bwmodel" = AutoML.Failed (AutoML.ApiFailure AutoML.NotFound) /\
  snd (AutoML.get_model AutoML.sort_reverse client "bwmodel")
    = AutoML.Done (None, None).
Proof.
  intros client. split; [reflexivity|].
  exact (proj1 (get_model_failures AutoML.sort_reverse client "bwmodel")
               eq_refl).
Defined.

(** X15: the model that [get_model] returns is the answer to its second
    call, and the feature list it returns is what [sort(reverse=True)]
    makes of the pairs (importance, name) of that model's columns.  As the
    sort returns the elements it is given, the list has exactly those
    pairs, each as often as it occurs among the columns; and as the sort
    puts lists without [NaN] into descending order, the list is in
    descending order when no importance is [NaN]: no pair in it is less
    than a later one. *)
Theorem get_model_features_sorted sort client model_display_name m feats :
  snd (AutoML.get_model sort client model_display_name)
    = AutoML.Done (Some m, Some feats) ->
  client 1%nat model_display_name = AutoML.Done m /\
  feats = sort (map AutoML.feature (AutoML.tables_model_column_info m)) /\
  (AutoML.sort_permutes sort ->
   Permutation (map AutoML.feature (AutoML.tables_model_column_info m)) feats) /\
  (AutoML.sort_descends sort ->
   AutoML.nan_free (map AutoML.feature (AutoML.tables_model_column_info m)) ->
   StronglySorted AutoML.feat_ge feats).
Proof.
  intros Hdone.
  destruct (get_model_done _ _ _ _ _ Hdone) as (Hm & -> & _).
  split; [assumption | split; [reflexivity | split]].
  - intros Hperm. apply Hperm.
  - intros Hdesc Hnan. now apply Hdesc.
Qed.

Lemma get_model_features_sorted_witness :
  let client := fun (_ : nat) (_ : string) => AutoML.Done example_model in
  let feats := [(Finite 3 (-2), "start_station_id");
                (Finite 1 (-1), "day_of_week");
                (Finite 1 (-1), "bike_id")] in
  snd (AutoML.get_model AutoML.sort_reverse client "bwmodel")
    = AutoML.Done (Some example_model, Some feats) /\
  AutoML.sort_permutes AutoML.sort_reverse /\
  AutoML.sort_descends AutoML.sort_reverse /\
  AutoML.nan_free
    (map AutoML.feature (AutoML.tables_model_column_info example_model)) /\
  client 1%nat "bwmodel" = AutoML.Done example_model /\
  Permutation
    (map AutoML.feature (AutoML.tables_model_column_info example_model)) feats /\
  StronglySorted AutoML.feat_ge feats.
Proof.
  intros client feats.
  assert (Hnan : AutoML.nan_free
            (map AutoML.feature (AutoML.tables_model_column_info example_model)))
    by (repeat constructor; discriminate).
  pose proof (get_model_features_sorted AutoML.sort_reverse client "bwmodel"
                example_model feats eq_refl) as (Hm & _ & Hperm & Hsorted).
  split; [reflexivity | split; [exact sort_reverse_permutes |
    split; [exact sort_reverse_descends | split; [exact Hnan |
    split; [exact Hm | split]]]]].
  - exact (Hperm sort_reverse_permutes).
  - exact (Hsorted sort_reverse_descends Hnan).
Defined.

(** X16: [get_model] prints the first ten features of the list it returns
    (all of them if there are fewer), whatever the list is; and as the
    sort puts lists without [NaN] into descending order, none of the
    features it prints is less than one it leaves out when no importance
    is [NaN]. *)
Theorem get_model_prints_top_features sort client model_display_name m feats :
  snd (AutoML.get_model sort client model_display_name)
    = AutoML.Done (Some m, Some feats) ->
  AutoML.printed_features
    (fst (AutoML.get_model sort client model_display_name))
    = firstn 10 feats /\
  (AutoML.sort_descends sort ->
   AutoML.nan_free (map AutoML.feature (AutoML.tables_model_column_info m)) ->
   forall shown hidden,
     In shown (firstn 10 feats) -> In hidden (skipn 10 feats) ->
     AutoML.feat_ge shown hidden).
Proof.
  intros Hdone.
  destruct (get_model_done _ _ _ _ _ Hdone) as (_ & Hfeats & Hprinted).
  split; [assumption|].
  intros Hdesc Hnan. apply strongly_sorted_app. rewrite firstn_skipn.
  subst feats. now apply Hdesc.
Qed.

Lemma get_model_prints_top_features_witness :
  let client := fun (_ : nat) (_ : string) => AutoML.Done wide_model in
  let feats :=
    map (fun z => (Finite z 0, "feature")) [11; 10; 9; 8; 7; 6; 5; 4; 3; 2; 1] in
  snd (AutoML.get_model AutoML.sort_reverse client "bwmodel")
    = AutoML.Done (Some wide_model, Some feats) /\
  AutoML.sort_descends AutoML.sort_reverse /\
  AutoML.nan_free
    (map AutoML.feature (AutoML.tables_model_column_info wide_model)) /\
  AutoML.printed_features
    (fst (AutoML.get_model AutoML.sort_reverse client "bwmodel"))
    = map (fun z => (Finite z 0, "feature")) [11; 10; 9; 8; 7; 6; 5; 4; 3; 2] /\
  AutoML.feat_ge (Finite 2 0, "feature") (Finite 1 0, "feature").
Proof.
  intros client feats.
  assert (Hnan : AutoML.nan_free
            (map AutoML.feature (AutoML.tables_model_column_info wide_model)))
    by (repeat constructor; discriminate).
  pose proof (get_model_prints_top_features AutoML.sort_reverse client
                "bwmodel" wide_model feats eq_refl) as [Hprinted Htop].
  split; [reflexivity | split; [exact sort_reverse_descends |
    split; [exact Hnan | split; [exact Hprinted|]]]].
  apply (Htop sort_reverse_descends Hnan); cbn; auto 12.
Defined.

(** * The component [automl_deploy_tables_model] *)

Lemma state_eqb_eq a b : AutoML.state_eqb a b = true <-> a = b.
Proof. destruct a, b; cbn; split; congruence. Qed.

Lemma deploy_status_tokens env model_display_name :
  let status := snd (DeployComponent.deploy_status env model_display_name) in
  status = "deployed" \/ status = "not_found" \/ status = "undeployed".
Proof.
  unfold DeployComponent.deploy_status.
  destruct (DeployComponent.get_model_reply env model_display_name)
    as [m|[[|]|e|]]; cbn; auto.
  destruct (AutoML.state_eqb (AutoML.deployment_state m) AutoML.DEPLOYED);
    cbn; auto.
  destruct (DeployComponent.deploy_model_reply env model_display_name)
    as [[r|[[|]|e|]]|[[|]|e|]]; cbn; auto.
Qed.

(** X17: once the two packages are installed and the client is created,
    the component returns, whatever the service does: every exception of
    [get_model], of [deploy_model] and of waiting for the deployment is
    caught.  It returns the model name it was given, unchanged, with one
    of the three statuses ['deployed'], ['not_found'] and ['undeployed']. *)
Theorem deploy_component_returns
  env gcp_project_id gcp_region model_display_name api_endpoint :
  DeployComponent.pip_install env DeployComponent.protos_package = true ->
  DeployComponent.pip_install env DeployComponent.automl_package = true ->
  DeployComponent.new_client env gcp_project_id gcp_region
    (DeployComponent.truthy api_endpoint) = AutoML.Done tt ->
  exists status,
    snd (DeployComponent.automl_deploy_tables_model
           env gcp_project_id gcp_region model_display_name api_endpoint)
    = AutoML.Done (model_display_name, status) /\
    (status = "deployed" \/ status = "not_found" \/ status = "undeployed").
Proof.
  intros Hp1 Hp2 Hclient.
  unfold DeployComponent.automl_deploy_tables_model.
  rewrite Hp1, Hp2, Hclient. cbn [negb].
  pose proof (deploy_status_tokens env model_display_name) as Htokens.
  destruct (DeployComponent.deploy_status env model_display_name)
    as [events status].
  exists status. split; [reflexivity | exact Htokens].
Qed.

(** X18: the component asks for a deployment at most once, for the model
    it was given, and exactly when the packages are installed, the client
    is created and the service answers [get_model] with a model that is
    not in the state [DEPLOYED]: a deployed model is never deployed again,
    and nothing is deployed after a failed [get_model]. *)
Theorem deploy_model_called_iff
  env gcp_project_id gcp_region model_display_name api_endpoint :
  let events :=
    fst (DeployComponent.automl_deploy_tables_model
           env gcp_project_id gcp_region model_display_name api_endpoint) in
  (DeployComponent.deploy_calls events = [model_display_name] \/
   DeployComponent.deploy_calls events = []) /\
  (DeployComponent.deploy_calls events = [model_display_name] <->
   DeployComponent.pip_install env DeployComponent.protos_package = true /\
   DeployComponent.pip_install env DeployComponent.automl_package = true /\
   (exists c,
       DeployComponent.new_client env gcp_project_id gcp_region
         (DeployComponent.truthy api_endpoint) = AutoML.Done c) /\
   (exists m,
       DeployComponent.get_model_reply env model_display_name = AutoML.Done m /\
       AutoML.deployment_state m <> AutoML.DEPLOYED)).
Proof.
  unfold DeployComponent.automl_deploy_tables_model.
  destruct (DeployComponent.pip_install env DeployComponent.protos_package);
    cbn [negb]; [|split; [now right | split; [easy | now intros [? _]]]].
  destruct (DeployComponent.pip_install env DeployComponent.automl_package);
    cbn [negb]; [|split; [now right | split; [easy | now intros (_ & ? & _)]]].
  destruct (DeployComponent.new_client env gcp_project_id gcp_region
              (DeployComponent.truthy api_endpoint)) as [c|e];
    [|split; [now right | split; [easy | now intros (_ & _ & [? ?] & _)]]].
  unfold DeployComponent.deploy_status.
  destruct (DeployComponent.get_model_reply env model_display_name) as [m|e].
  2:{ cbn. split; [now right | split; [easy | now intros (_ & _ & _ & ? & ? & _)]]. }
  destruct (AutoML.state_eqb (AutoML.deployment_state m) AutoML.DEPLOYED) eqn:Es.
  - apply state_eqb_eq in Es. cbn.
    split; [now right | split; [easy|]].
    intros (_ & _ & _ & m' & [= <-] & Hne). now destruct Hne.
  - assert (Hne : AutoML.deployment_state m <> AutoML.DEPLOYED).
    { intros H. apply state_eqb_eq in H. congruence. }
    destruct (DeployComponent.deploy_model_reply env model_display_name)
      as [[r|e]|e]; cbn;
      (split; [now left | split; [|reflexivity]]);
      intros _; repeat split; eauto.
Qed.

Lemma deploy_component_returns_witness :
  let env :=
    DeployComponent.mkEnvironment
      (fun _ => true) (fun _ _ _ => AutoML.Done tt)
      (fun _ => AutoML.Failed (AutoML.ApiFailure AutoML.OtherException))
      (fun _ => AutoML.Done (AutoML.Done "done")) in
  DeployComponent.pip_install env DeployComponent.protos_package = true /\
  DeployComponent.pip_install env DeployComponent.automl_package = true /\
  DeployComponent.new_client env "project" "us-central1"
    (DeployComponent.truthy (Some "")) = AutoML.Done tt /\
  exists status,
    snd (DeployComponent.automl_deploy_tables_model
           env "project" "us-central1" "bwmodel" (Some ""))
    = AutoML.Done ("bwmodel", status) /\
    (status = "deployed" \/ status = "not_found" \/ status = "undeployed").
Proof.
  intros env.
  split; [reflexivity | split; [reflexivity | split; [reflexivity|]]].
  exact (deploy_component_returns env "project" "us-central1" "bwmodel"
           (Some "") eq_refl eq_refl eq_refl).
Defined.

Lemma deploy_status_deployed_iff env model_display_name :
  snd (DeployComponent.deploy_status env model_display_name) = "deployed" <->
  exists m,
    DeployComponent.get_model_reply env model_display_name = AutoML.Done m /\
    (AutoML.deployment_state m = AutoML.DEPLOYED \/
     exists r,
       DeployComponent.deploy_model_reply env model_display_name
       = AutoML.Done (AutoML.Done r)).
Proof.
  unfold DeployComponent.deploy_status.
  destruct (DeployComponent.get_model_reply env model_display_name)
    as [m|e].
  2:{ split; [|now intros (m & ? & _)].
      destruct e as [[|]|e|]; cbn; discriminate. }
  destruct (AutoML.state_eqb (AutoML.deployment_state m) AutoML.DEPLOYED) eqn:Es.
  - apply state_eqb_eq in Es. cbn. split; [|reflexivity].
    intros _. exists m. split; [reflexivity | now left].
  - assert (Hne : AutoML.deployment_state m <> AutoML.DEPLOYED).
    { intros H. apply state_eqb_eq in H. congruence. }
    destruct (DeployComponent.deploy_model_reply env model_display_name)
      as [[r|e]|e]; cbn.
    + split; [|reflexivity]. intros _. exists m. split; [reflexivity|].
      right. now exists r.
    + split.
      * destruct e as [[|]|e|]; cbn; discriminate.
      * intros (m' & [= <-] & [H | (r & H)]); [now destruct Hne | discriminate H].
    + split.
      * destruct e as [[|]|e|]; cbn; discriminate.
      * intros (m' & [= <-] & [H | (r & H)]); [now destruct Hne | discriminate H].
Qed.

Lemma status_of_failure_not_found e :
  DeployComponent.status_of_failure e = "not_found" <->
  e = AutoML.ApiFailure AutoML.NotFound.
Proof. destruct e as [[|]|e|]; cbn; split; congruence. Qed.

Lemma deploy_status_not_found_iff env model_display_name :
  snd (DeployComponent.deploy_status env model_display_name) = "not_found" <->
  DeployComponent.get_model_reply env model_display_name
    = AutoML.Failed (AutoML.ApiFailure AutoML.NotFound) \/
  exists m,
    DeployComponent.get_model_reply env model_display_name = AutoML.Done m /\
    AutoML.deployment_state m <> AutoML.DEPLOYED /\
    (DeployComponent.deploy_model_reply env model_display_name
       = AutoML.Failed (AutoML.ApiFailure AutoML.NotFound) \/
     DeployComponent.deploy_model_reply env model_display_name
       = AutoML.Done (AutoML.Failed (AutoML.ApiFailure AutoML.NotFound))).
Proof.
  unfold DeployComponent.deploy_status.
  destruct (DeployComponent.get_model_reply env model_display_name)
    as [m|e].
  2:{ cbn [snd]. rewrite status_of_failure_not_found. split.
      - intros ->. now left.
      - intros [[= ->] | (m & ? & _)]; [reflexivity | discriminate]. }
  destruct (AutoML.state_eqb (AutoML.deployment_state m) AutoML.DEPLOYED) eqn:Es.
  - apply state_eqb_eq in Es. cbn. split; [discriminate|].
    intros [H | (m' & [= <-] & Hne & _)]; [discriminate H | now destruct Hne].
  - assert (Hne : AutoML.deployment_state m <> AutoML.DEPLOYED).
    { intros H. apply state_eqb_eq in H. congruence. }
    destruct (DeployComponent.deploy_model_reply env model_display_name)
      as [[r|e]|e]; cbn [snd].
    + split; [discriminate|].
      intros [H | (m' & _ & _ & [H | H])]; discriminate H.
    + rewrite status_of_failure_not_found. split.
      * intros ->. right. exists m. auto.
      * intros [H | (m' & _ & _ & [H | [= ->]])];
          [discriminate H | discriminate H | reflexivity].
    + rewrite status_of_failure_not_found. split.
      * intros ->. right. exists m. auto.
      * intros [H | (m' & _ & _ & [[= ->] | H])];
          [discriminate H | reflexivity | discriminate H].
Qed.

(** X19: what the statuses mean, once the packages are installed and the
    client is created.  The status is ['deployed'] exactly when the
    service knows the model and either reports it [DEPLOYED] or accepts
    and completes the deployment.  It is ['not_found'] exactly when
    [NotFound] is raised, by [get_model] or, for a model that is not
    [DEPLOYED], by [deploy_model] or by waiting for its result.  In every
    other case it is ['undeployed']. *)
Theorem deploy_status_meaning
  env gcp_project_id gcp_region model_display_name api_endpoint :
  DeployComponent.pip_install env DeployComponent.protos_package = true ->
  DeployComponent.pip_install env DeployComponent.automl_package = true ->
  DeployComponent.new_client env gcp_project_id gcp_region
    (DeployComponent.truthy api_endpoint) = AutoML.Done tt ->
  let returned :=
    snd (DeployComponent.automl_deploy_tables_model
           env gcp_project_id gcp_region model_display_name api_endpoint) in
  (returned = AutoML.Done (model_display_name, "deployed") <->
   exists m,
     DeployComponent.get_model_reply env model_display_name = AutoML.Done m /\
     (AutoML.deployment_state m = AutoML.DEPLOYED \/
      exists r,
        DeployComponent.deploy_model_reply env model_display_name
        = AutoML.Done (AutoML.Done r))) /\
  (returned = AutoML.Done (model_display_name, "not_found") <->
   DeployComponent.get_model_reply env model_display_name
     = AutoML.Failed (AutoML.ApiFailure AutoML.NotFound) \/
   exists m,
     DeployComponent.get_model_reply env model_display_name = AutoML.Done m /\
     AutoML.deployment_state m <> AutoML.DEPLOYED /\
     (DeployComponent.deploy_model_reply env model_display_name
        = AutoML.Failed (AutoML.ApiFailure AutoML.NotFound) \/
      DeployComponent.deploy_model_reply env model_display_name
        = AutoML.Done (AutoML.Failed (AutoML.ApiFailure AutoML.NotFound)))).
Proof.
  intros Hp1 Hp2 Hclient.
  unfold DeployComponent.automl_deploy_tables_model.
  rewrite Hp1, Hp2, Hclient. cbn [negb].
  rewrite <- deploy_status_deployed_iff, <- deploy_status_not_found_iff.
  destruct (DeployComponent.deploy_status env model_display_name)
    as [events status].
  cbn [snd]. split; split; intros H; congruence.
Qed.

Lemma deploy_status_meaning_witness :
  let env :=
    DeployComponent.mkEnvironment
      (fun _ => true) (fun _ _ _ => AutoML.Done tt)
      (fun _ => AutoML.Done example_model)
      (fun _ => AutoML.Done (AutoML.Failed (AutoML.ApiFailure AutoML.NotFound))) in
  DeployComponent.pip_install env DeployComponent.protos_package = true /\
  DeployComponent.pip_install env DeployComponent.automl_package = true /\
  DeployComponent.new_client env "project" "us-central1"
    (DeployComponent.truthy None) = AutoML.Done tt /\
  snd (DeployComponent.automl_deploy_tables_model
         env "project" "us-central1" "bwmodel" None)
  = AutoML.Done ("bwmodel", "not_found").
Proof.
  intros env.
  split; [reflexivity | split; [reflexivity | split; [reflexivity|]]].
  apply (proj2 (deploy_status_meaning env "project" "us-central1" "bwmodel"
                  None eq_refl eq_refl eq_refl)).
  right. exists example_model.
  split; [reflexivity | split; [discriminate | right; reflexivity]].
Defined.
